(** * Edward variational inference: the inference-class hierarchy

    A shallow embedding of [edward/inferences.py]: the optimisation loop of
    [VariationalInference], the loss constructions of [MFVI], [KLpq], [MAP]
    and [Laplace], and the properties the specification states about them.

    The Python code builds a TensorFlow graph: the values it manipulates are
    graph nodes, embedded here as the inductive type [tensor].  Methods
    mutate the instance and the process-wide engine, and may raise; they are
    embedded in a state-and-exception monad in which a raise keeps the
    mutations made before it, as in Python. *)

From Stdlib Require Import ZArith QArith List String Ascii Bool Lia.
From Stdlib Require Import DecimalString Qabs.
From Stdlib Require Import Reals Lra.
Import ListNotations.

Local Open Scope Z_scope.
Local Open Scope string_scope.
Local Open Scope list_scope.

Set Implicit Arguments.

(* ===================================================================== *)
(** ** Exceptions and the state-and-exception monad *)
(* ===================================================================== *)

(** The Python exceptions the module can raise by itself. *)
Inductive exn : Type :=
| NotImplementedError (msg : string)
| AttributeError (attr : string)
| NameError (name : string)
| ZeroDivisionError
| EngineError (msg : string).

Inductive result (A : Type) : Type :=
| Ok (a : A)
| Raise (e : exn).

Arguments Ok {A} a.
Arguments Raise {A} e.

(** A computation over a state [S]: the state after the call, and either the
    returned value or the exception raised.  The state is returned in both
    cases: what was assigned before a raise stays assigned. *)
Definition M (S A : Type) : Type := S -> S * result A.

Definition ret {S A} (a : A) : M S A := fun s => (s, Ok a).

Definition raise {S A} (e : exn) : M S A := fun s => (s, Raise e).

Definition bind {S A B} (m : M S A) (k : A -> M S B) : M S B :=
  fun s =>
    match m s with
    | (s', Ok a) => k a s'
    | (s', Raise e) => (s', Raise e)
    end.

Definition gets {S A} (f : S -> A) : M S A := fun s => (s, Ok (f s)).

Definition modify {S} (f : S -> S) : M S unit := fun s => (f s, Ok tt).

Definition lift_result {S A} (r : result A) : M S A := fun s => (s, r).

Declare Scope py_scope.
Delimit Scope py_scope with py.

Notation "x <- m ;; k" := (bind m (fun x => k))
  (at level 61, m at next level, right associativity) : py_scope.
Notation "m ;; k" := (bind m (fun _ => k))
  (at level 61, right associativity) : py_scope.

Local Open Scope py_scope.

(** [for x in xs: body x], an exception leaving the loop. *)
Fixpoint for_each {S A} (xs : list A) (body : A -> M S unit) : M S unit :=
  match xs with
  | [] => ret tt
  | x :: xs' => body x ;; for_each xs' body
  end.

(** [[f(x) for x in xs]] where [f] may raise. *)
Fixpoint map_result {A B} (f : A -> result B) (xs : list A) : result (list B) :=
  match xs with
  | [] => Ok []
  | x :: xs' =>
      match f x with
      | Raise e => Raise e
      | Ok b =>
          match map_result f xs' with
          | Raise e => Raise e
          | Ok bs => Ok (b :: bs)
          end
      end
  end.

(** Python's [range(n)] on integers: empty when [n <= 0]. *)
Definition range (n : Z) : list Z := map Z.of_nat (seq 0 (Z.to_nat n)).

(** Python's [a % b] on integers: the sign follows the divisor, and a zero
    divisor raises. *)
Definition py_mod {S} (a b : Z) : M S Z :=
  if (b =? 0)%Z then raise ZeroDivisionError else ret (a mod b).

(* ===================================================================== *)
(** ** Graph nodes *)
(* ===================================================================== *)

(** [tf.GraphKeys.TRAINABLE_VARIABLES], optionally filtered by a scope. *)
Inductive var_collection : Type :=
| TrainableVariables (scope : option string).

(** The graph nodes that the module builds.  Calls into the collaborators
    (data source, model, variational family, [edward.util]) are nodes whose
    meaning belongs to the collaborator. *)
#[warnings="-register-all"]
Inductive tensor : Type :=
| t_constant (c : Q)
| t_variable (initial_value : Q) (trainable : bool)
| t_ref (name : string)
| t_data_sample (n : option Z)
| t_q_sample (n : option Z)
| t_q_log_prob (z : tensor)
| t_q_entropy
| t_model_log_prob (x z : tensor)
| t_model_log_lik (x z : tensor)
| t_kl_multivariate_normal (mu sigma : tensor)
| t_log_sum_exp (x : tensor)
| t_hessian (y : tensor) (vars : var_collection)
| t_stop_gradient (x : tensor)
| t_reduce_mean (x : tensor)
| t_squeeze (x : tensor)
| t_exp (x : tensor)
| t_neg (x : tensor)
| t_sub (a b : tensor)
| t_add (a b : tensor)
| t_mul (a b : tensor)
| t_pack (xs : list tensor).

(** Modelled from the spec: [edward.util.stop_gradient] is not part of the
    sources at hand.  The specification describes the frozen copies as
    values with no backward dataflow, built with the engine's detach
    construct: the node is [tf.stop_gradient] of the argument. *)
Definition stop_gradient (x : tensor) : tensor := t_stop_gradient x.

(** [edward.util.log_sum_exp], [kl_multivariate_normal] and [hessian] build
    one node each; their numeric meaning is given with [eval] below. *)
Definition log_sum_exp (x : tensor) : tensor := t_log_sum_exp x.
Definition kl_multivariate_normal (mu sigma : tensor) : tensor :=
  t_kl_multivariate_normal mu sigma.
Definition hessian (y : tensor) (vars : var_collection) : tensor :=
  t_hessian y vars.

(** Learning-rate schedules, optimizers and train steps, as built by
    [initialize]. *)
Inductive learning_rate : Type :=
| constant_rate (r : Q)
| exponential_decay (start : Q) (global_step : tensor) (decay_steps : Z)
    (decay_rate : Q) (staircase : bool).

Inductive optimizer : Type :=
| AdamOptimizer (lr : learning_rate) (epsilon : option Q).

Inductive train_op : Type :=
| minimize (opt : optimizer) (loss : tensor) (global_step : tensor)
    (var_list : var_collection)
| pt_apply_optimizer (opt : optimizer) (losses : list tensor).

(** A Python float as returned by the engine: the exact value of a finite
    double ([Finite 0] being the positive zero), the negative zero, or one
    of the other special values. *)
Inductive pyfloat : Type :=
| Finite (q : Q)
| NegativeZero
| Infinite (negative : bool)
| NaN.

(* ===================================================================== *)
(** ** String formatting *)
(* ===================================================================== *)

(** ["{:d}".format(t)] *)
Definition format_d (t : Z) : string := NilZero.string_of_int (Z.to_int t).

(** Rounding a non-negative rational to the nearest integer, ties to even. *)
Definition round_half_even (q : Q) : Z :=
  let n := Qnum q in
  let d := Zpos (Qden q) in
  let fl := n / d in
  let r2 := 2 * (n mod d) in
  if (r2 <? d)%Z then fl
  else if (d <? r2)%Z then fl + 1
  else if Z.even fl then fl else fl + 1.

Definition digit (n : Z) : ascii := ascii_of_nat (48 + Z.to_nat (n mod 10)).

Definition Qabs_val (q : Q) : Q := Z.abs (Qnum q) # Qden q.

(** ["{:.2f}".format(loss)]: sign, integer part, a point and two digits;
    the exact value is rounded to the nearest hundredth, ties to even. *)
Definition format_2f (l : pyfloat) : string :=
  match l with
  | NaN => "nan"
  | Infinite false => "inf"
  | Infinite true => "-inf"
  | NegativeZero => "-0.00"
  | Finite q =>
      let h := round_half_even (Qabs_val q * (100 # 1)) in
      ((if (Qnum q <? 0)%Z then "-" else "") ++ format_d (h / 100)) ++
      String "." (String (digit (h / 10)) (String (digit h) EmptyString))
  end.

(** The decimal digits. *)
Definition is_digit (c : ascii) : bool :=
  (48 <=? nat_of_ascii c)%nat && (nat_of_ascii c <=? 57)%nat.

(* ===================================================================== *)
(** ** Collaborators *)
(* ===================================================================== *)

(** The probability model, as far as the module looks at it: [log_prob] is
    always there, [num_vars] and [log_lik] are looked up with [hasattr]. *)
Record Model : Type := {
  num_vars : option Z;
  has_log_lik : bool
}.

(** The data source; [Data()] is the default of the constructors. *)
Inductive Data : Type :=
| mkData (name : string).

Definition Data_default : Data := mkData "".

(** What the module needs from [edward.models] and from the engine
    (TensorFlow, PrettyTensor, the session of [edward.util.get_session]).
    Neither is part of the sources at hand: both are taken as parameters.
    [PointMass scope n params] is the layer that [PointMass(n, params)]
    builds under the variable scope [scope]; [layer_loc] and [layer_scale]
    are the attribute reads [layer.loc] and [layer.scale]. *)
Class Collaborators : Type := {
  Variational : Type;
  Layer : Type;
  Variational_new : Variational;
  Variational_add : Variational -> Layer -> Variational;
  PointMass : list string -> Z -> option tensor -> Layer;
  is_reparam : Variational -> bool;
  is_normal : Variational -> bool;
  layers : Variational -> list Layer;
  layer_loc : Layer -> result tensor;
  layer_scale : Layer -> result tensor;
  TF : Type;
  get_session : TF -> TF;
  has_prettytensor : bool;
  initialize_all_variables : TF -> TF;
  sess_run : TF -> train_op -> tensor -> option tensor -> TF * result pyfloat;
  variational_str : TF -> Variational -> string;
  tensor_eval_str : TF -> tensor -> TF * result string
}.

(* ===================================================================== *)
(** ** Instances, the world, and attribute access *)
(* ===================================================================== *)

Section Inferences.

Context {C : Collaborators}.

(** An inference object.  [model], [data] and [variational] are set by the
    constructors; every other attribute is absent ([None]) until a method
    assigns it, and reading an absent attribute raises [AttributeError].
    [n_data] and [n_print] may hold Python's [None]. *)
Record Instance : Type := {
  model : Model;
  data : Data;
  variational : Variational;
  n_iter : option Z;
  n_data : option (option Z);
  n_print : option (option Z);
  loss : option tensor;
  train : option train_op;
  zs : option tensor;
  score : option bool;
  n_minibatch : option Z
}.

(** The process-wide state: the engine, what was printed, and the stack of
    open variable scopes. *)
Record World : Type := {
  tf : TF;
  stdout : list string;
  var_scope : list string
}.

Record State : Type := {
  self : Instance;
  world : World
}.

Definition set_n_iter (v : Z) (o : Instance) : Instance :=
  {| model := model o; data := data o; variational := variational o;
     n_iter := Some v; n_data := n_data o; n_print := n_print o;
     loss := loss o; train := train o; zs := zs o; score := score o;
     n_minibatch := n_minibatch o |}.

Definition set_n_data (v : option Z) (o : Instance) : Instance :=
  {| model := model o; data := data o; variational := variational o;
     n_iter := n_iter o; n_data := Some v; n_print := n_print o;
     loss := loss o; train := train o; zs := zs o; score := score o;
     n_minibatch := n_minibatch o |}.

Definition set_n_print (v : option Z) (o : Instance) : Instance :=
  {| model := model o; data := data o; variational := variational o;
     n_iter := n_iter o; n_data := n_data o; n_print := Some v;
     loss := loss o; train := train o; zs := zs o; score := score o;
     n_minibatch := n_minibatch o |}.

Definition set_loss (v : tensor) (o : Instance) : Instance :=
  {| model := model o; data := data o; variational := variational o;
     n_iter := n_iter o; n_data := n_data o; n_print := n_print o;
     loss := Some v; train := train o; zs := zs o; score := score o;
     n_minibatch := n_minibatch o |}.

Definition set_train (v : train_op) (o : Instance) : Instance :=
  {| model := model o; data := data o; variational := variational o;
     n_iter := n_iter o; n_data := n_data o; n_print := n_print o;
     loss := loss o; train := Some v; zs := zs o; score := score o;
     n_minibatch := n_minibatch o |}.

Definition set_zs (v : tensor) (o : Instance) : Instance :=
  {| model := model o; data := data o; variational := variational o;
     n_iter := n_iter o; n_data := n_data o; n_print := n_print o;
     loss := loss o; train := train o; zs := Some v; score := score o;
     n_minibatch := n_minibatch o |}.

Definition set_score (v : bool) (o : Instance) : Instance :=
  {| model := model o; data := data o; variational := variational o;
     n_iter := n_iter o; n_data := n_data o; n_print := n_print o;
     loss := loss o; train := train o; zs := zs o; score := Some v;
     n_minibatch := n_minibatch o |}.

Definition set_n_minibatch (v : Z) (o : Instance) : Instance :=
  {| model := model o; data := data o; variational := variational o;
     n_iter := n_iter o; n_data := n_data o; n_print := n_print o;
     loss := loss o; train := train o; zs := zs o; score := score o;
     n_minibatch := Some v |}.

(** [self.a = v] *)
Definition assign (f : Instance -> Instance) : M State unit :=
  modify (fun s => {| self := f (self s); world := world s |}).

(** [self.a], raising [AttributeError] when the attribute was never set. *)
Definition attr {A} (name : string) (get : Instance -> option A) : M State A :=
  fun s =>
    match get (self s) with
    | Some v => (s, Ok v)
    | None => (s, Raise (AttributeError name))
    end.

(** An engine call that only changes the engine. *)
Definition engine (f : TF -> TF) : M State unit :=
  modify (fun s =>
    {| self := self s;
       world := {| tf := f (tf (world s)); stdout := stdout (world s);
                   var_scope := var_scope (world s) |} |}).

(** [print(line)] *)
Definition print (line : string) : M State unit :=
  modify (fun s =>
    {| self := self s;
       world := {| tf := tf (world s); stdout := stdout (world s) ++ [line];
                   var_scope := var_scope (world s) |} |}).

(** [self.data.sample(self.n_data)] *)
Definition data_sample : M State tensor :=
  n <- attr "n_data" n_data ;;
  ret (t_data_sample n).

(** [self.variational.sample(self.n_minibatch)] *)
Definition variational_sample_minibatch : M State tensor :=
  n <- attr "n_minibatch" n_minibatch ;;
  ret (t_q_sample (Some n)).

(** [self.model.log_lik(x, z)], an attribute the model may lack. *)
Definition model_log_lik (x z : tensor) : M State tensor :=
  m <- gets (fun s => model (self s)) ;;
  if has_log_lik m then ret (t_model_log_lik x z)
  else raise (AttributeError "log_lik").

(** [tf.pack([f(layer) for layer in self.variational.layers])] *)
Definition pack_layers (f : Layer -> result tensor) : M State tensor :=
  v <- gets (fun s => variational (self s)) ;;
  xs <- lift_result (map_result f (layers v)) ;;
  ret (t_pack xs).

(* ===================================================================== *)
(** ** [VariationalInference] *)
(* ===================================================================== *)

(** The keyword arguments of [VariationalInference.initialize]. *)
Record VIArgs : Type := {
  a_n_iter : Z;
  a_n_data : option Z;
  a_n_print : option Z;
  a_optimizer : option string;
  a_scope : option string
}.

(** [initialize()] with every default. *)
Definition VIArgs_default : VIArgs :=
  {| a_n_iter := 1000; a_n_data := None; a_n_print := Some 100;
     a_optimizer := None; a_scope := None |}.

(** [Inference.__init__] followed by [self.variational = variational]. *)
Definition new_instance (m : Model) (v : Variational) (d : Data) : Instance :=
  {| model := m; data := d; variational := v;
     n_iter := None; n_data := None; n_print := None; loss := None;
     train := None; zs := None; score := None; n_minibatch := None |}.

(** [get_session()], from a constructor. *)
Definition world_get_session : M World unit :=
  modify (fun w =>
    {| tf := get_session (tf w); stdout := stdout w;
       var_scope := var_scope w |}).

(** [VariationalInference.__init__] *)
Definition VariationalInference_init (m : Model) (v : Variational) (d : Data)
  : M World Instance :=
  world_get_session ;;
  ret (new_instance m v d).

(** [pt.apply_optimizer]: the name [pt] is bound only if the import of
    PrettyTensor succeeded. *)
Definition prettytensor : M State unit :=
  if has_prettytensor then ret tt else raise (NameError "pt").

(** [VariationalInference.initialize]; [build_loss] is the method of the
    class of [self]. *)
Definition VariationalInference_initialize (build_loss : M State tensor)
    (a : VIArgs) : M State unit :=
  assign (set_n_iter (a_n_iter a)) ;;
  assign (set_n_data (a_n_data a)) ;;
  assign (set_n_print (a_n_print a)) ;;
  assign (set_loss (t_constant 0)) ;;
  loss <- build_loss ;;
  match a_optimizer a with
  | None =>
      let var_list := TrainableVariables (a_scope a) in
      let global_step := t_variable 0 false in
      let starter_learning_rate := (1 # 10)%Q in
      let learning_rate :=
        exponential_decay starter_learning_rate global_step 100 (9 # 10) true in
      let optimizer := AdamOptimizer learning_rate None in
      assign (set_train (minimize optimizer loss global_step var_list))
  | Some _ =>
      match a_scope a with
      | Some _ =>
          raise (NotImplementedError
                   "PrettyTensor optimizer does not accept a variable scope.")
      | None => ret tt
      end ;;
      let optimizer := AdamOptimizer (constant_rate (1 # 100)) (Some 1%Q) in
      prettytensor ;;
      assign (set_train (pt_apply_optimizer optimizer [loss]))
  end ;;
  engine initialize_all_variables.

(** [VariationalInference.update] *)
Definition VariationalInference_update : M State pyfloat :=
  engine get_session ;;
  tr <- attr "train" train ;;
  l <- attr "loss" loss ;;
  fun s =>
    let (e, r) := sess_run (tf (world s)) tr l None in
    ({| self := self s;
        world := {| tf := e; stdout := stdout (world s);
                    var_scope := var_scope (world s) |} |}, r).

(** [VariationalInference.print_progress] *)
Definition VariationalInference_print_progress (t : Z) (loss : pyfloat)
  : M State unit :=
  n_print <- attr "n_print" n_print ;;
  match n_print with
  | None => ret tt
  | Some k =>
      r <- py_mod t k ;;
      if (r =? 0)%Z then
        print ("iter " ++ format_d t ++ " loss " ++ format_2f loss) ;;
        s <- gets (fun s => s) ;;
        print (variational_str (tf (world s)) (variational (self s)))
      else ret tt
  end.

(** [VariationalInference.finalize] *)
Definition VariationalInference_finalize : M State unit := ret tt.

(** [VariationalInference.build_loss] *)
Definition VariationalInference_build_loss : M State tensor :=
  raise (NotImplementedError "").

(* ===================================================================== *)
(** ** [MFVI] *)
(* ===================================================================== *)

Record MFVIArgs : Type := {
  a_n_minibatch : Z;
  a_score : option bool;
  a_rest : VIArgs
}.

Definition MFVIArgs_default : MFVIArgs :=
  {| a_n_minibatch := 1; a_score := None; a_rest := VIArgs_default |}.

Definition MFVI_build_score_loss : M State tensor :=
  x <- data_sample ;;
  sample <- variational_sample_minibatch ;;
  assign (set_zs sample) ;;
  z <- attr "zs" zs ;;
  let q_log_prob := t_q_log_prob (stop_gradient z) in
  let losses := t_sub (t_model_log_prob x z) q_log_prob in
  assign (set_loss (t_reduce_mean losses)) ;;
  ret (t_neg (t_reduce_mean (t_mul q_log_prob (t_stop_gradient losses)))).

Definition MFVI_build_reparam_loss : M State tensor :=
  x <- data_sample ;;
  sample <- variational_sample_minibatch ;;
  assign (set_zs sample) ;;
  z <- attr "zs" zs ;;
  assign (set_loss
            (t_reduce_mean (t_sub (t_model_log_prob x z) (t_q_log_prob z)))) ;;
  l <- attr "loss" loss ;;
  ret (t_neg l).

Definition MFVI_build_score_loss_kl : M State tensor :=
  x <- data_sample ;;
  sample <- variational_sample_minibatch ;;
  assign (set_zs sample) ;;
  z <- attr "zs" zs ;;
  let q_log_prob := t_q_log_prob (stop_gradient z) in
  p_log_lik <- model_log_lik x z ;;
  mu <- pack_layers layer_loc ;;
  sigma <- pack_layers layer_scale ;;
  let kl := kl_multivariate_normal mu sigma in
  assign (set_loss (t_sub (t_reduce_mean p_log_lik) kl)) ;;
  ret (t_neg (t_sub (t_reduce_mean (t_mul q_log_prob (t_stop_gradient p_log_lik)))
                    kl)).

Definition MFVI_build_score_loss_entropy : M State tensor :=
  x <- data_sample ;;
  sample <- variational_sample_minibatch ;;
  assign (set_zs sample) ;;
  z <- attr "zs" zs ;;
  let q_log_prob := t_q_log_prob (stop_gradient z) in
  let p_log_prob := t_model_log_prob x z in
  let q_entropy := t_q_entropy in
  assign (set_loss (t_add (t_reduce_mean p_log_prob) q_entropy)) ;;
  ret (t_neg (t_add (t_reduce_mean (t_mul q_log_prob (t_stop_gradient p_log_prob)))
                    q_entropy)).

Definition MFVI_build_reparam_loss_kl : M State tensor :=
  x <- data_sample ;;
  sample <- variational_sample_minibatch ;;
  assign (set_zs sample) ;;
  z <- attr "zs" zs ;;
  mu <- pack_layers layer_loc ;;
  sigma <- pack_layers layer_scale ;;
  p_log_lik <- model_log_lik x z ;;
  assign (set_loss (t_sub (t_reduce_mean p_log_lik)
                          (kl_multivariate_normal mu sigma))) ;;
  l <- attr "loss" loss ;;
  ret (t_neg l).

Definition MFVI_build_reparam_loss_entropy : M State tensor :=
  x <- data_sample ;;
  sample <- variational_sample_minibatch ;;
  assign (set_zs sample) ;;
  z <- attr "zs" zs ;;
  assign (set_loss (t_add (t_reduce_mean (t_model_log_prob x z)) t_q_entropy)) ;;
  l <- attr "loss" loss ;;
  ret (t_neg l).

(** [self.variational.is_normal and hasattr(self.model, 'log_lik')] *)
Definition analytic_kl (o : Instance) : bool :=
  is_normal (variational o) && has_log_lik (model o).

(** [MFVI.build_loss]; the branches on [is_entropy] are commented out in the
    source and have no counterpart here. *)
Definition MFVI_build_loss : M State tensor :=
  score <- attr "score" score ;;
  o <- gets self ;;
  if score : bool then
    if analytic_kl o then MFVI_build_score_loss_kl
    else MFVI_build_score_loss
  else
    if analytic_kl o then MFVI_build_reparam_loss_kl
    else MFVI_build_reparam_loss.

(** [MFVI.initialize] *)
Definition MFVI_initialize (a : MFVIArgs) : M State unit :=
  v <- gets (fun s => variational (self s)) ;;
  (if match a_score a with None => is_reparam v | Some _ => false end
   then assign (set_score false)
   else assign (set_score true)) ;;
  assign (set_n_minibatch (a_n_minibatch a)) ;;
  VariationalInference_initialize MFVI_build_loss (a_rest a).

(** [MFVI.update]; the feed is [self.variational.np_dict(self.zs)]. *)
Definition MFVI_update : M State pyfloat :=
  engine get_session ;;
  z <- attr "zs" zs ;;
  tr <- attr "train" train ;;
  l <- attr "loss" loss ;;
  fun s =>
    let (e, r) := sess_run (tf (world s)) tr l (Some z) in
    ({| self := self s;
        world := {| tf := e; stdout := stdout (world s);
                    var_scope := var_scope (world s) |} |}, r).

(* ===================================================================== *)
(** ** [KLpq] *)
(* ===================================================================== *)

Record KLpqArgs : Type := {
  k_n_minibatch : Z;
  k_rest : VIArgs
}.

(** The normalised importance weights of [KLpq.build_loss], as functions of
    the node [log_w]. *)
Definition KLpq_log_w_norm (log_w : tensor) : tensor :=
  t_sub log_w (log_sum_exp log_w).

Definition KLpq_w_norm (log_w : tensor) : tensor :=
  t_exp (KLpq_log_w_norm log_w).

Definition KLpq_build_loss : M State tensor :=
  x <- data_sample ;;
  sample <- variational_sample_minibatch ;;
  assign (set_zs sample) ;;
  z <- attr "zs" zs ;;
  let q_log_prob := t_q_log_prob (stop_gradient z) in
  let log_w := t_sub (t_model_log_prob x z) q_log_prob in
  let w_norm := KLpq_w_norm log_w in
  assign (set_loss (t_reduce_mean (t_mul w_norm log_w))) ;;
  ret (t_neg (t_reduce_mean (t_mul q_log_prob (t_stop_gradient w_norm)))).

Definition KLpq_initialize (a : KLpqArgs) : M State unit :=
  assign (set_n_minibatch (k_n_minibatch a)) ;;
  VariationalInference_initialize KLpq_build_loss (k_rest a).

(** [KLpq.update] *)
Definition KLpq_update : M State pyfloat :=
  engine get_session ;;
  z <- attr "zs" zs ;;
  tr <- attr "train" train ;;
  l <- attr "loss" loss ;;
  fun s =>
    let (e, r) := sess_run (tf (world s)) tr l (Some z) in
    ({| self := self s;
        world := {| tf := e; stdout := stdout (world s);
                    var_scope := var_scope (world s) |} |}, r).

(* ===================================================================== *)
(** ** [MAP] and [Laplace] *)
(* ===================================================================== *)

(** [PointMass(n, params)], built under the variable scopes open at the
    time of the call. *)
Definition point_mass (n : Z) (params : option tensor) : M World Layer :=
  scope <- gets var_scope ;;
  ret (PointMass scope n params).

(** [model.num_vars] *)
Definition model_num_vars (m : Model) : M World Z :=
  match num_vars m with
  | Some n => ret n
  | None => raise (AttributeError "num_vars")
  end.

(** [with tf.variable_scope(name): body]: the scope is closed again when the
    body returns and when it raises. *)
Definition with_variable_scope {A} (name : string) (body : M World A)
  : M World A :=
  fun w =>
    let (w', r) :=
      body {| tf := tf w; stdout := stdout w;
              var_scope := var_scope w ++ [name] |} in
    ({| tf := tf w'; stdout := stdout w'; var_scope := var_scope w |}, r).

(** [MAP.__init__]; [PointMass(0)] leaves [params] to its default. *)
Definition MAP_init (m : Model) (d : Data) (params : option tensor)
  : M World Instance :=
  variational <-
    (match num_vars m with
     | Some _ =>
         n <- model_num_vars m ;;
         layer <- point_mass n params ;;
         ret (Variational_add Variational_new layer)
     | None =>
         layer <- point_mass 0 None ;;
         ret (Variational_add Variational_new layer)
     end) ;;
  VariationalInference_init m variational d.

(** [MAP.build_loss] *)
Definition MAP_build_loss : M State tensor :=
  x <- data_sample ;;
  let z := t_q_sample None in
  assign (set_loss (t_squeeze (t_model_log_prob x z))) ;;
  l <- attr "loss" loss ;;
  ret (t_neg l).

(** [Laplace.__init__] *)
Definition Laplace_init (m : Model) (d : Data) (params : option tensor)
  : M World Instance :=
  variational <-
    with_variable_scope "variational"
      (n <- model_num_vars m ;;
       layer <- point_mass n params ;;
       ret (Variational_add Variational_new layer)) ;;
  VariationalInference_init m variational d.

(** [Laplace.build_loss] *)
Definition Laplace_build_loss : M State tensor :=
  x <- data_sample ;;
  let z := t_q_sample None in
  assign (set_loss (t_squeeze (t_model_log_prob x z))) ;;
  l <- attr "loss" loss ;;
  ret (t_neg l).

(** [Laplace.finalize] *)
Definition Laplace_finalize : M State unit :=
  engine get_session ;;
  x <- data_sample ;;
  let z := t_q_sample None in
  let var_list := TrainableVariables (Some "variational") in
  let inv_cov := hessian (t_model_log_prob x z) var_list in
  print "Precision matrix:" ;;
  text <- (fun s =>
             let (e, r) := tensor_eval_str (tf (world s)) inv_cov in
             ({| self := self s;
                 world := {| tf := e; stdout := stdout (world s);
                             var_scope := var_scope (world s) |} |}, r)) ;;
  print text.

(* ===================================================================== *)
(** ** Notions used to state the properties *)
(* ===================================================================== *)

(** The world after [get_session()]. *)
Definition with_session (w : World) : World :=
  {| tf := get_session (tf w); stdout := stdout w; var_scope := var_scope w |}.

(** The state [s] after printing [lines]. *)
Definition printed (lines : list string) (s : State) : State :=
  {| self := self s;
     world := {| tf := tf (world s); stdout := stdout (world s) ++ lines;
                 var_scope := var_scope (world s) |} |}.

(** What [print_progress] prints at iteration [t] with loss [l]. *)
Definition progress_lines (t : Z) (l : pyfloat) (s : State) : list string :=
  [ ("iter " ++ format_d t ++ " loss " ++ format_2f l)%string;
    variational_str (tf (world s)) (variational (self s)) ].

(** The instance once [initialize] has stored its arguments and reset the
    loss, before it builds the loss. *)
Definition entered (a : VIArgs) (s : State) : State :=
  {| self := set_loss (t_constant 0)
               (set_n_print (a_n_print a)
                  (set_n_data (a_n_data a) (set_n_iter (a_n_iter a) (self s))));
     world := world s |}.

Definition not_supported : exn :=
  NotImplementedError "PrettyTensor optimizer does not accept a variable scope.".

(** Every attribute except [loss] and [zs] is the same in [o'] as in [o]. *)
Definition settings_kept (o o' : Instance) : Prop :=
  model o' = model o /\ data o' = data o /\
  variational o' = variational o /\
  n_iter o' = n_iter o /\ n_data o' = n_data o /\ n_print o' = n_print o /\
  train o' = train o /\ score o' = score o /\
  n_minibatch o' = n_minibatch o.

(** A method that assigns nothing but [self.loss] and [self.zs], and leaves
    the world alone. *)
Definition builds_only_loss (b : M State tensor) : Prop :=
  forall s : State,
    settings_kept (self s) (self (fst (b s))) /\ world (fst (b s)) = world s.

Inductive estimator : Type :=
| score_function
| reparameterization.

(** The estimator that [self.score] stands for. *)
Definition selected_estimator (o : Instance) : option estimator :=
  match score o with
  | Some true => Some score_function
  | Some false => Some reparameterization
  | None => None
  end.

(** The top of what a builder returns: the negation of a sum, which only
    the analytic-entropy builders produce. *)
Definition negated_sum (r : tensor) : bool :=
  match r with
  | t_neg (t_add _ _) => true
  | _ => false
  end.

(** What keeps the loop of [run] going: a train step and a loss are set,
    and the print interval is the one that was asked for. *)
Definition runnable (a : VIArgs) (s : State) : Prop :=
  (exists tr, train (self s) = Some tr) /\
  (exists l, loss (self s) = Some l) /\
  n_print (self s) = Some (a_n_print a).

End Inferences.

(* ===================================================================== *)
(** ** Classes and [run] *)
(* ===================================================================== *)

(** The methods that [run] and [initialize] reach through [self], and the
    read of [self.n_iter].  A class is a table of them over the state of
    its instances. *)
Record PyClass (S Args : Type) : Type := {
  initialize : Args -> M S unit;
  update : M S pyfloat;
  print_progress : Z -> pyfloat -> M S unit;
  finalize : M S unit;
  build_loss : M S tensor;
  self_n_iter : M S Z
}.

(** [VariationalInference.run], inherited by every class. *)
Definition run {S Args} (cls : PyClass S Args) (args : Args) : M S unit :=
  initialize cls args ;;
  n_iter <- self_n_iter cls ;;
  for_each (range (n_iter + 1))
    (fun t =>
       loss <- update cls ;;
       print_progress cls t loss) ;;
  finalize cls.

Section Classes.

Context {C : Collaborators}.

Definition VariationalInference_class : PyClass State VIArgs :=
  {| initialize := VariationalInference_initialize VariationalInference_build_loss;
     update := VariationalInference_update;
     print_progress := VariationalInference_print_progress;
     finalize := VariationalInference_finalize;
     build_loss := VariationalInference_build_loss;
     self_n_iter := attr "n_iter" n_iter |}.

Definition MFVI_class : PyClass State MFVIArgs :=
  {| initialize := MFVI_initialize;
     update := MFVI_update;
     print_progress := VariationalInference_print_progress;
     finalize := VariationalInference_finalize;
     build_loss := MFVI_build_loss;
     self_n_iter := attr "n_iter" n_iter |}.

Definition KLpq_class : PyClass State KLpqArgs :=
  {| initialize := KLpq_initialize;
     update := KLpq_update;
     print_progress := VariationalInference_print_progress;
     finalize := VariationalInference_finalize;
     build_loss := KLpq_build_loss;
     self_n_iter := attr "n_iter" n_iter |}.

Definition MAP_class : PyClass State VIArgs :=
  {| initialize := VariationalInference_initialize MAP_build_loss;
     update := VariationalInference_update;
     print_progress := VariationalInference_print_progress;
     finalize := VariationalInference_finalize;
     build_loss := MAP_build_loss;
     self_n_iter := attr "n_iter" n_iter |}.

Definition Laplace_class : PyClass State VIArgs :=
  {| initialize := VariationalInference_initialize Laplace_build_loss;
     update := VariationalInference_update;
     print_progress := VariationalInference_print_progress;
     finalize := Laplace_finalize;
     build_loss := Laplace_build_loss;
     self_n_iter := attr "n_iter" n_iter |}.

End Classes.

(* ===================================================================== *)
(** ** Observing the calls that [run] makes *)
(* ===================================================================== *)

(** One entry per call that [run] makes through [self]; an [update] is
    recorded with the loss it returned. *)
Inductive call (Args : Type) : Type :=
| call_initialize (args : Args)
| call_update (returned : pyfloat)
| call_print_progress (t : Z) (loss : pyfloat)
| call_finalize.

Arguments call_update {Args} returned.
Arguments call_print_progress {Args} t loss.
Arguments call_finalize {Args}.

(** Running a method on the first component of a pair of states. *)
Definition on_fst {S T A} (m : M S A) : M (S * T) A :=
  fun st =>
    let (s', r) := m (fst st) in ((s', snd st), r).

Definition record {S Args} (c : call Args) : M (S * list (call Args)) unit :=
  modify (fun st => (fst st, snd st ++ [c])).

(** The class [cls] with a log beside the instance state: every method does
    what it does in [cls], and the calls are appended to the log, which the
    methods themselves cannot touch. *)
Definition observed {S Args} (cls : PyClass S Args)
  : PyClass (S * list (call Args)) Args :=
  {| initialize := fun args =>
       record (call_initialize args) ;; on_fst (initialize cls args);
     update :=
       loss <- on_fst (update cls) ;;
       record (call_update loss) ;;
       ret loss;
     print_progress := fun t loss =>
       record (call_print_progress t loss) ;; on_fst (print_progress cls t loss);
     finalize := record call_finalize ;; on_fst (finalize cls);
     build_loss := on_fst (build_loss cls);
     self_n_iter := on_fst (self_n_iter cls) |}.

(** [m'], on the instance state with a log beside it, does on the instance
    state what [m] does, and returns or raises the same. *)
Definition mirrors {S Args A} (m' : M (S * list (call Args)) A) (m : M S A)
  : Prop :=
  forall (s : S) (log : list (call Args)),
    fst (fst (m' (s, log))) = fst (m s) /\ snd (m' (s, log)) = snd (m s).

(** The calls of the loop body for the iterations [t, t+1, ...], one per
    returned loss. *)
Fixpoint loop_calls {Args} (t : Z) (losses : list pyfloat) : list (call Args) :=
  match losses with
  | [] => []
  | l :: ls => call_update l :: call_print_progress t l :: loop_calls (t + 1) ls
  end.

(* ===================================================================== *)
(** ** Forward values and backward dataflow of graph nodes *)
(* ===================================================================== *)

(** The value of a node in exact arithmetic: a scalar or a vector of reals
    (what the engine computes in floating point). *)
Inductive value : Type :=
| Scalar (r : R)
| Vector (v : list R).

(** The values that the collaborators give to their own nodes. *)
Record Interp : Type := {
  i_variable : Q -> bool -> option value;
  i_ref : string -> option value;
  i_data_sample : option Z -> option value;
  i_q_sample : option Z -> option value;
  i_q_log_prob : value -> option value;
  i_q_entropy : option value;
  i_model_log_prob : value -> value -> option value;
  i_model_log_lik : value -> value -> option value;
  i_kl_multivariate_normal : value -> value -> option value;
  i_pack : list value -> option value
}.

Definition Rsum (v : list R) : R := fold_right Rplus 0%R v.

Definition reduce_max (x : R) (v : list R) : R := fold_right Rmax x v.

Fixpoint zip_with (f : R -> R -> R) (xs ys : list R) : list R :=
  match xs, ys with
  | x :: xs', y :: ys' => f x y :: zip_with f xs' ys'
  | _, _ => []
  end.

(** An elementwise operation, a scalar operand being broadcast; vectors of
    different lengths are given no value. *)
Definition elementwise (f : R -> R -> R) (a b : value) : option value :=
  match a, b with
  | Scalar x, Scalar y => Some (Scalar (f x y))
  | Scalar x, Vector ys => Some (Vector (map (f x) ys))
  | Vector xs, Scalar y => Some (Vector (map (fun x => f x y) xs))
  | Vector xs, Vector ys =>
      if Nat.eqb (List.length xs) (List.length ys) then Some (Vector (zip_with f xs ys))
      else None
  end.

Definition pointwise (f : R -> R) (a : value) : value :=
  match a with
  | Scalar x => Scalar (f x)
  | Vector xs => Vector (map f xs)
  end.

(** [tf.reduce_mean]; the mean of no element is not a number. *)
Definition reduce_mean (a : value) : option value :=
  match a with
  | Scalar x => Some (Scalar x)
  | Vector [] => None
  | Vector xs => Some (Scalar (Rsum xs / INR (List.length xs)))
  end.

(** [tf.squeeze] *)
Definition squeeze (a : value) : value :=
  match a with
  | Vector [x] => Scalar x
  | _ => a
  end.

(** Modelled from the spec: [edward.util.log_sum_exp] is not part of the
    sources at hand.  The specification asks for a numerically stable
    log-domain reduction: the maximum is taken out before exponentiating
    and added back to the logarithm of the sum. *)
Definition log_sum_exp_list (x : R) (v : list R) : R :=
  let x_max := reduce_max x v in
  (x_max + ln (Rsum (map (fun xi => exp (xi - x_max)) (x :: v))))%R.

Definition log_sum_exp_value (a : value) : option value :=
  match a with
  | Scalar x => Some (Scalar (log_sum_exp_list x []))
  | Vector [] => None
  | Vector (x :: v) => Some (Scalar (log_sum_exp_list x v))
  end.

Definition obind {A B} (o : option A) (k : A -> option B) : option B :=
  match o with
  | Some a => k a
  | None => None
  end.

Section Eval.

Variable I : Interp.

(** The forward value of a node.  [tf.stop_gradient] is the identity on
    values.  A Hessian is not a function of the value of its argument and
    is given no value here. *)
Fixpoint eval (e : tensor) : option value :=
  match e with
  | t_constant c => Some (Scalar (Q2R c))
  | t_variable c b => i_variable I c b
  | t_ref name => i_ref I name
  | t_data_sample n => i_data_sample I n
  | t_q_sample n => i_q_sample I n
  | t_q_log_prob z => obind (eval z) (i_q_log_prob I)
  | t_q_entropy => i_q_entropy I
  | t_model_log_prob x z =>
      obind (eval x) (fun vx => obind (eval z) (i_model_log_prob I vx))
  | t_model_log_lik x z =>
      obind (eval x) (fun vx => obind (eval z) (i_model_log_lik I vx))
  | t_kl_multivariate_normal mu sigma =>
      obind (eval mu) (fun vm =>
        obind (eval sigma) (i_kl_multivariate_normal I vm))
  | t_log_sum_exp x => obind (eval x) log_sum_exp_value
  | t_hessian _ _ => None
  | t_stop_gradient x => eval x
  | t_reduce_mean x => obind (eval x) reduce_mean
  | t_squeeze x => obind (eval x) (fun v => Some (squeeze v))
  | t_exp x => obind (eval x) (fun v => Some (pointwise exp v))
  | t_neg x => obind (eval x) (fun v => Some (pointwise Ropp v))
  | t_sub a b => obind (eval a) (fun va => obind (eval b) (elementwise Rminus va))
  | t_add a b => obind (eval a) (fun va => obind (eval b) (elementwise Rplus va))
  | t_mul a b => obind (eval a) (fun va => obind (eval b) (elementwise Rmult va))
  | t_pack xs =>
      obind
        ((fix eval_all (l : list tensor) : option (list value) :=
            match l with
            | [] => Some []
            | x :: l' =>
                obind (eval x) (fun v =>
                  obind (eval_all l') (fun vs => Some (v :: vs)))
            end) xs)
        (i_pack I)
  end.

End Eval.

(** The nodes that backpropagation from [e] visits: [e], then the inputs of
    every visited node, except those of a [tf.stop_gradient]. *)
Fixpoint grad_nodes (e : tensor) : list tensor :=
  e ::
  match e with
  | t_constant _ | t_variable _ _ | t_ref _ | t_data_sample _
  | t_q_sample _ | t_q_entropy => []
  | t_stop_gradient _ => []
  | t_q_log_prob x | t_log_sum_exp x | t_hessian x _ | t_reduce_mean x
  | t_squeeze x | t_exp x | t_neg x => grad_nodes x
  | t_model_log_prob a b | t_model_log_lik a b
  | t_kl_multivariate_normal a b | t_sub a b | t_add a b | t_mul a b =>
      grad_nodes a ++ grad_nodes b
  | t_pack xs =>
      (fix all (l : list tensor) : list tensor :=
         match l with
         | [] => []
         | x :: l' => grad_nodes x ++ all l'
         end) xs
  end.

(** The softmax of a vector, from the words of the specification. *)
Definition softmax (v : list R) : list R :=
  map (fun x => (exp x / Rsum (map exp v))%R) v.

(* ===================================================================== *)
(** ** A concrete family and engine *)
(* ===================================================================== *)

(** A small instance of the collaborators on which the methods compute: a
    family of point-mass and Gaussian layers whose flags are the
    conjunction of those of its layers, and an engine that counts the
    optimizer steps and reports the count as the loss. *)
Inductive ex_layer : Type :=
| ex_point_mass (scope : list string) (n : Z) (params : option tensor)
| ex_normal (loc scale : string).

Record ex_family : Type := {
  ex_layers : list ex_layer;
  ex_is_reparam : bool;
  ex_is_normal : bool
}.

Definition ex_layer_is_normal (l : ex_layer) : bool :=
  match l with
  | ex_normal _ _ => true
  | ex_point_mass _ _ _ => false
  end.

Definition ex_collaborators : Collaborators :=
  {| Variational := ex_family;
     Layer := ex_layer;
     Variational_new :=
       {| ex_layers := []; ex_is_reparam := true; ex_is_normal := true |};
     Variational_add := fun v l =>
       {| ex_layers := ex_layers v ++ [l];
          ex_is_reparam := ex_is_reparam v;
          ex_is_normal := ex_is_normal v && ex_layer_is_normal l |};
     PointMass := ex_point_mass;
     is_reparam := ex_is_reparam;
     is_normal := ex_is_normal;
     layers := ex_layers;
     layer_loc := fun l =>
       match l with
       | ex_normal loc _ => Ok (t_ref loc)
       | ex_point_mass _ _ _ => Raise (AttributeError "loc")
       end;
     layer_scale := fun l =>
       match l with
       | ex_normal _ scale => Ok (t_ref scale)
       | ex_point_mass _ _ _ => Raise (AttributeError "scale")
       end;
     TF := nat;
     get_session := fun e => e;
     has_prettytensor := false;
     initialize_all_variables := fun _ => 0%nat;
     sess_run := fun e _ _ _ => (S e, Ok (Finite (Z.of_nat e # 4)));
     variational_str := fun e v => "q";
     tensor_eval_str := fun e _ => (e, Ok "H") |}.

Definition ex_world : @World ex_collaborators :=
  @Build_World ex_collaborators 0%nat [] [].

Definition ex_model : Model := {| num_vars := Some 2; has_log_lik := false |}.

(** A model that declares no latent dimension. *)
Definition ex_model_bare : Model := {| num_vars := None; has_log_lik := false |}.

(** A family that cannot be reparameterized. *)
Definition ex_family_score : ex_family :=
  {| ex_layers := []; ex_is_reparam := false; ex_is_normal := false |}.

(** A fresh [MAP] object for [ex_model], right after its construction. *)
Definition ex_map_state : @State ex_collaborators :=
  let (w, r) := MAP_init ex_model Data_default None ex_world in
  {| self :=
       match r with
       | Ok o => o
       | Raise _ =>
           new_instance ex_model (@Variational_new ex_collaborators) Data_default
       end;
     world := w |}.

(** A fresh [MFVI] object over the family [v]. *)
Definition ex_mfvi_state (v : ex_family) : @State ex_collaborators :=
  {| self := @new_instance ex_collaborators ex_model v Data_default;
     world := ex_world |}.

(** Two iterations past the first, printing at every one. *)
Definition ex_args_short : VIArgs :=
  {| a_n_iter := 2; a_n_data := None; a_n_print := Some 1;
     a_optimizer := None; a_scope := None |}.

(** A custom optimizer together with a scope. *)
Definition ex_args_scoped_optimizer : VIArgs :=
  {| a_n_iter := 1000; a_n_data := None; a_n_print := Some 100;
     a_optimizer := Some "prettytensor"; a_scope := Some "variational" |}.

(** The [MAP] object once [initialize()] has run with its defaults. *)
Definition ex_ready_state : @State ex_collaborators :=
  fst (initialize (@MAP_class ex_collaborators) VIArgs_default ex_map_state).

(** An [MFVI] object with its settings stored and the score estimator
    chosen. *)
Definition ex_mfvi_ready (v : ex_family) (b : bool) : @State ex_collaborators :=
  {| self :=
       set_score b
         (set_n_minibatch 5 (set_n_data None (self (ex_mfvi_state v))));
     world := ex_world |}.

Definition ex_family_normal : ex_family :=
  {| ex_layers := [ex_normal "loc" "scale"]; ex_is_reparam := true;
     ex_is_normal := true |}.

(** An interpretation in which the node ["logw"] is the vector [(0, 0)]. *)
Definition ex_interp : Interp :=
  {| i_variable := fun _ _ => None;
     i_ref := fun name =>
       if String.eqb name "logw" then Some (Vector [0%R; 0%R]) else None;
     i_data_sample := fun _ => None;
     i_q_sample := fun _ => None;
     i_q_log_prob := fun _ => None;
     i_q_entropy := None;
     i_model_log_prob := fun _ _ => None;
     i_model_log_lik := fun _ _ => None;
     i_kl_multivariate_normal := fun _ _ => None;
     i_pack := fun _ => None |}.

(* ===================================================================== *)
(** ** Tracing every call of [run], returning or not *)
(* ===================================================================== *)

(** What happens during a run: a method is entered, or [update] hands back
    a loss.  A method that raises leaves its entry and nothing else. *)
Inductive event (Args : Type) : Type :=
| enters_initialize (args : Args)
| enters_update
| update_returns (loss : pyfloat)
| enters_print_progress (t : Z) (loss : pyfloat)
| enters_finalize.

Arguments enters_update {Args}.
Arguments update_returns {Args} loss.
Arguments enters_print_progress {Args} t loss.
Arguments enters_finalize {Args}.

Definition note {S E} (e : E) : M (S * list E) unit :=
  modify (fun st => (fst st, snd st ++ [e])).

(** The class [cls] with a trace beside the instance state: every method
    notes its entry before it does what it does in [cls], and [update] also
    notes the loss it returns. *)
Definition traced {S Args} (cls : PyClass S Args)
  : PyClass (S * list (event Args)) Args :=
  {| initialize := fun args =>
       note (enters_initialize args) ;; on_fst (initialize cls args);
     update :=
       note enters_update ;;
       loss <- on_fst (update cls) ;;
       note (update_returns loss) ;;
       ret loss;
     print_progress := fun t loss =>
       note (enters_print_progress t loss) ;;
       on_fst (print_progress cls t loss);
     finalize := note enters_finalize ;; on_fst (finalize cls);
     build_loss := on_fst (build_loss cls);
     self_n_iter := on_fst (self_n_iter cls) |}.

(** The events of whole turns of the loop, for the iterations
    [t, t+1, ...], one turn per returned loss. *)
Fixpoint turns {Args} (t : Z) (losses : list pyfloat) : list (event Args) :=
  match losses with
  | [] => []
  | l :: ls =>
      enters_update :: update_returns l :: enters_print_progress t l ::
      turns (t + 1) ls
  end.

(* ===================================================================== *)
(** ** Further notions: train steps, reports, instances ready to update *)
(* ===================================================================== *)

Section FurtherNotions.

Context {C : Collaborators}.

(** The train step that [initialize] builds when no optimizer is given. *)
Definition default_train (objective : tensor) (scope : option string)
  : train_op :=
  minimize
    (AdamOptimizer
       (exponential_decay (1 # 10) (t_variable 0 false) 100 (9 # 10) true)
       None)
    objective (t_variable 0 false) (TrainableVariables scope).

(** The train step that [initialize] builds for a custom optimizer. *)
Definition prettytensor_train (objective : tensor) : train_op :=
  pt_apply_optimizer (AdamOptimizer (constant_rate (1 # 100)) (Some 1%Q))
    [objective].

(** The loss of [MAP] and [Laplace] for a mini-batch size [nd]. *)
Definition log_joint (nd : option Z) : tensor :=
  t_squeeze (t_model_log_prob (t_data_sample nd) (t_q_sample None)).

(** The state with the engine replaced. *)
Definition with_engine (e : TF) (s : State) : State :=
  {| self := self s;
     world := {| tf := e; stdout := stdout (world s);
                 var_scope := var_scope (world s) |} |}.

(** The instance of [s] with the attributes [o]. *)
Definition with_self (o : Instance) (s : State) : State :=
  {| self := o; world := world s |}.

(** What [MFVI.update] and [KLpq.update] need: a sample, a train step, a
    loss, and the print interval that was asked for. *)
Definition runnable_with_sample (a : VIArgs) (s : State) : Prop :=
  runnable a s /\ exists z, zs (self s) = Some z.

(** The number of lines that [print_progress] prints at iteration [t] for a
    print interval [k]. *)
Definition report_lines (k : Z) (t : Z) : nat :=
  if (t mod k =? 0)%Z then 2%nat else 0%nat.

Definition total (ns : list nat) : nat := fold_right Nat.add 0%nat ns.

(** The engine never fails on a step. *)
Definition engine_steps : Prop :=
  forall (e : TF) (tr : train_op) (l : tensor) (f : option tensor),
    exists e' v, sess_run e tr l f = (e', Ok v).

End FurtherNotions.

(** More concrete inputs. *)

(** A model with an analytic-likelihood split. *)
Definition ex_model_lik : Model := {| num_vars := Some 2; has_log_lik := true |}.

(** An [MFVI] object over the Gaussian family and [ex_model_lik], with its
    settings stored. *)
Definition ex_kl_state : @State ex_collaborators :=
  {| self :=
       set_n_minibatch 5
         (set_n_data None
            (@new_instance ex_collaborators ex_model_lik ex_family_normal
               Data_default));
     world := ex_world |}.

(** Ten iterations past the first, a report every five. *)
Definition ex_args_reports : VIArgs :=
  {| a_n_iter := 10; a_n_data := None; a_n_print := Some 5;
     a_optimizer := None; a_scope := None |}.

(** The same without reports. *)
Definition ex_args_silent : VIArgs :=
  {| a_n_iter := 10; a_n_data := None; a_n_print := None;
     a_optimizer := None; a_scope := None |}.

(** A custom optimizer and no scope. *)
Definition ex_args_custom : VIArgs :=
  {| a_n_iter := 1000; a_n_data := None; a_n_print := Some 100;
     a_optimizer := Some "prettytensor"; a_scope := None |}.

(** A print interval of zero. *)
Definition ex_args_zero_interval : VIArgs :=
  {| a_n_iter := 3; a_n_data := None; a_n_print := Some 0;
     a_optimizer := None; a_scope := None |}.

Definition ex_klpq_args : KLpqArgs :=
  {| k_n_minibatch := 5; k_rest := ex_args_short |}.

(** An interpretation with a vector of two log-weights, the same vector
    shifted by 1, and a single log-weight. *)
Definition ex_interp_weights : Interp :=
  {| i_variable := fun _ _ => None;
     i_ref := fun name =>
       if String.eqb name "logw" then Some (Vector [0%R; 0%R])
       else if String.eqb name "shifted"
            then Some (Vector (map (fun x => (x + 1)%R) [0%R; 0%R]))
       else if String.eqb name "single" then Some (Vector [2%R])
       else None;
     i_data_sample := fun _ => None;
     i_q_sample := fun _ => None;
     i_q_log_prob := fun _ => None;
     i_q_entropy := None;
     i_model_log_prob := fun _ _ => None;
     i_model_log_lik := fun _ _ => None;
     i_kl_multivariate_normal := fun _ _ => None;
     i_pack := fun _ => None |}.

(* ===================================================================== *)
(** * Properties *)
(* ===================================================================== *)

(** ** The monad *)

Lemma bind_Ok_inv {S A B} (m : M S A) (k : A -> M S B) s s' b :
  bind m k s = (s', Ok b) ->
  exists s1 a, m s = (s1, Ok a) /\ k a s1 = (s', Ok b).
Proof.
  unfold bind. destruct (m s) as [s1 [a | e]]; intros H.
  - exists s1, a. split; [reflexivity | exact H].
  - discriminate H.
Qed.

Lemma bind_Ok {S A B} (m : M S A) (k : A -> M S B) s s1 a :
  m s = (s1, Ok a) -> bind m k s = k a s1.
Proof. unfold bind. intros ->. reflexivity. Qed.

Lemma bind_Raise {S A B} (m : M S A) (k : A -> M S B) s s1 e :
  m s = (s1, Raise e) -> bind m k s = (s1, Raise e).
Proof. unfold bind. intros ->. reflexivity. Qed.

Example range_three : range (2 + 1) = [0; 1; 2].
Proof. reflexivity. Qed.

Example range_of_negative : range (-4 + 1) = [].
Proof. reflexivity. Qed.

(** ** Formatting *)

Example format_d_negative : format_d (-12) = "-12".
Proof. reflexivity. Qed.

Example format_2f_rounds : format_2f (Finite (1999 # 1000)) = "2.00".
Proof. reflexivity. Qed.

(** An exact tie goes to the even hundredth. *)
Example format_2f_tie : format_2f (Finite (3 # 8)) = "0.38".
Proof. reflexivity. Qed.

Example format_2f_tie_down : format_2f (Finite (1 # 8)) = "0.12".
Proof. reflexivity. Qed.

(** A negative loss that rounds to zero keeps its sign. *)
Example format_2f_negative_zero : format_2f (Finite (-1 # 1000)) = "-0.00".
Proof. reflexivity. Qed.

Example format_2f_nan : format_2f NaN = "nan".
Proof. reflexivity. Qed.

Lemma digit_is_digit (n : Z) : is_digit (digit n) = true.
Proof.
  unfold is_digit, digit.
  assert (H : 0 <= n mod 10 < 10) by (apply Z.mod_pos_bound; lia).
  rewrite nat_ascii_embedding by lia.
  apply andb_true_intro; split; apply Nat.leb_le; lia.
Qed.

(** A finite loss is printed with a point followed by exactly two digits. *)
Lemma format_2f_two_decimals (q : Q) :
  exists (int_part : string) (d1 d2 : ascii),
    format_2f (Finite q) =
      (int_part ++ String "." (String d1 (String d2 EmptyString)))%string /\
    is_digit d1 = true /\ is_digit d2 = true.
Proof.
  unfold format_2f.
  eexists _, _, _. split; [reflexivity |].
  split; apply digit_is_digit.
Qed.

Example format_2f_of_negative_zero : format_2f NegativeZero = "-0.00".
Proof. reflexivity. Qed.

Example format_2f_of_zero : format_2f (Finite 0) = "0.00".
Proof. reflexivity. Qed.

Example format_2f_negative : format_2f (Finite (-7 # 3)) = "-2.33".
Proof. reflexivity. Qed.

Lemma append_associative (a b c : string) :
  ((a ++ b) ++ c = a ++ (b ++ c))%string.
Proof.
  induction a as [| x a IH]; simpl; [reflexivity |].
  rewrite IH. reflexivity.
Qed.

Lemma round_half_even_nearest (n : Z) (d : positive) :
  let h := round_half_even (n # d) in
  2 * Z.abs (n - h * Zpos d) <= Zpos d /\
  (2 * Z.abs (n - h * Zpos d) = Zpos d -> Z.even h = true) /\
  (0 <= n -> 0 <= h).
Proof.
  cbv zeta. unfold round_half_even. cbn [Qnum Qden].
  pose proof (Z.div_mod n (Zpos d) ltac:(lia)) as E.
  pose proof (Z.mod_pos_bound n (Zpos d) ltac:(lia)) as B.
  assert (Hfl : 0 <= n -> 0 <= n / Zpos d) by (intros; apply Z.div_pos; lia).
  set (fl := n / Zpos d) in *. set (r := n mod Zpos d) in *.
  destruct (Z.ltb_spec (2 * r) (Zpos d)) as [H1 | H1].
  - repeat split; [lia | lia | exact Hfl].
  - destruct (Z.ltb_spec (Zpos d) (2 * r)) as [H2 | H2].
    + repeat split; [lia | lia | intros Hn; specialize (Hfl Hn); lia].
    + destruct (Z.even fl) eqn:Hev.
      * repeat split; [lia | intros _; exact Hev | exact Hfl].
      * repeat split; [lia | | intros Hn; specialize (Hfl Hn); lia].
        intros _. rewrite Z.even_add, Hev. reflexivity.
Qed.

(** What [.2f] prints for a finite loss: the sign, then the hundredths
    nearest to the magnitude of the loss (the even one at an exact tie),
    written as their integer part, a point and their last two digits. *)
Lemma format_2f_nearest_hundredth (q : Q) :
  exists h : Z,
    0 <= h /\
    (Qabs (Qabs q * (100 # 1) - inject_Z h) <= 1 # 2)%Q /\
    ((Qabs (Qabs q * (100 # 1) - inject_Z h) == 1 # 2)%Q -> Z.even h = true) /\
    format_2f (Finite q) =
      ((if (Qnum q <? 0)%Z then "-" else "") ++ format_d (h / 100) ++
       String "." (String (digit (h / 10)) (String (digit h) EmptyString)))%string.
Proof.
  destruct q as [n d].
  pose proof (round_half_even_nearest (Z.abs n * 100) (d * 1)) as H.
  cbv zeta in H. destruct H as (Hc & He & Hp).
  exists (round_half_even (Qabs_val (n # d) * (100 # 1))).
  unfold Qabs_val. cbn [Qnum Qden].
  change ((Z.abs n # d) * (100 # 1))%Q with (Z.abs n * 100 # d * 1).
  set (h := round_half_even (Z.abs n * 100 # d * 1)) in *.
  assert (Hq : (Qabs (Qabs (n # d) * (100 # 1) - inject_Z h) ==
                Z.abs (Z.abs n * 100 - h * Zpos (d * 1)) # (d * 1))%Q).
  { unfold Qabs, Qminus, Qplus, Qopp, Qmult, inject_Z, Qeq. cbn [Qnum Qden].
    rewrite !Pos.mul_1_r. f_equal. f_equal. lia. }
  split; [apply Hp; lia |]. split; [| split].
  - rewrite Hq. unfold Qle. cbn [Qnum Qden]. lia.
  - intros Ht. apply He. rewrite Hq in Ht. unfold Qeq in Ht.
    cbn [Qnum Qden] in Ht. lia.
  - unfold format_2f, Qabs_val. cbn [Qnum Qden].
    change ((Z.abs n # d) * (100 # 1))%Q with (Z.abs n * 100 # d * 1).
    fold h. rewrite <- append_associative. reflexivity.
Qed.

Section Properties.

Context {C : Collaborators}.

Lemma print_progress_fires (t : Z) (l : pyfloat) (s : State) (k : Z) :
  n_print (self s) = Some (Some k) -> k <> 0 -> t mod k = 0 ->
  VariationalInference_print_progress t l s =
    (printed (progress_lines t l s) s, Ok tt).
Proof.
  intros Hn Hk Hm.
  unfold VariationalInference_print_progress, bind, attr, py_mod.
  rewrite Hn.
  destruct (Z.eqb_spec k 0) as [E | _]; [contradiction |].
  unfold ret. rewrite Hm.
  cbv beta iota delta [Z.eqb print modify gets bind].
  cbn [self world tf stdout var_scope].
  unfold printed, progress_lines.
  rewrite <- app_assoc. reflexivity.
Qed.

Lemma print_progress_silent (t : Z) (l : pyfloat) (s : State) (k : Z) :
  n_print (self s) = Some (Some k) -> k <> 0 -> t mod k <> 0 ->
  VariationalInference_print_progress t l s = (s, Ok tt).
Proof.
  intros Hn Hk Hm.
  unfold VariationalInference_print_progress, bind, attr, py_mod.
  rewrite Hn.
  destruct (Z.eqb_spec k 0) as [E | _]; [contradiction |].
  unfold ret.
  destruct (Z.eqb_spec (t mod k) 0) as [E | _]; [contradiction |].
  reflexivity.
Qed.

Lemma print_progress_disabled (t : Z) (l : pyfloat) (s : State) :
  n_print (self s) = Some None ->
  VariationalInference_print_progress t l s = (s, Ok tt).
Proof.
  intros Hn.
  unfold VariationalInference_print_progress, bind, attr.
  rewrite Hn. reflexivity.
Qed.

(** With a print interval of zero the test [t % n_print] raises. *)
Lemma print_progress_zero_interval (t : Z) (l : pyfloat) (s : State) :
  n_print (self s) = Some (Some 0) ->
  VariationalInference_print_progress t l s = (s, Raise ZeroDivisionError).
Proof.
  intros Hn.
  unfold VariationalInference_print_progress, bind, attr.
  rewrite Hn. reflexivity.
Qed.

(** C8: [print_progress(t, loss)] prints nothing when [n_print] is [None];
    when [n_print] is a non-zero integer it prints exactly when [t] is a
    multiple of [n_print], and then it prints the line with the iteration
    index and the loss in [.2f] format, followed by the text of the current
    variational family.  The [.2f] text of a finite loss is its sign and
    the hundredths nearest to its magnitude (the even one at a tie), as
    integer part, point and exactly two digits; the negative zero prints as
    [-0.00].  Instance and engine are left as they are. *)
Theorem print_progress_spec (t : Z) (l : pyfloat) (s : State)
    (interval : option Z) :
  n_print (self s) = Some interval ->
  interval <> Some 0 ->
  (interval = None ->
     VariationalInference_print_progress t l s = (s, Ok tt)) /\
  (forall k, interval = Some k ->
     ((k | t) ->
        VariationalInference_print_progress t l s =
          (printed (progress_lines t l s) s, Ok tt) /\
        stdout (world (fst (VariationalInference_print_progress t l s))) =
          stdout (world s) ++
          [ ("iter " ++ format_d t ++ " loss " ++ format_2f l)%string;
            variational_str (tf (world s)) (variational (self s)) ]) /\
     (~ (k | t) ->
        VariationalInference_print_progress t l s = (s, Ok tt))) /\
  (forall q, l = Finite q ->
     exists int_part d1 d2,
       format_2f l =
         (int_part ++ String "." (String d1 (String d2 EmptyString)))%string /\
       is_digit d1 = true /\ is_digit d2 = true) /\
  (forall q, l = Finite q ->
     exists h : Z,
       0 <= h /\
       (Qabs (Qabs q * (100 # 1) - inject_Z h) <= 1 # 2)%Q /\
       ((Qabs (Qabs q * (100 # 1) - inject_Z h) == 1 # 2)%Q ->
        Z.even h = true) /\
       format_2f l =
         ((if (Qnum q <? 0)%Z then "-" else "") ++ format_d (h / 100) ++
          String "." (String (digit (h / 10)) (String (digit h) EmptyString)))%string) /\
  (l = NegativeZero -> format_2f l = "-0.00").
Proof.
  intros Hn H0. split; [| split; [| split; [| split]]].
  - intros ->. apply print_progress_disabled; assumption.
  - intros k ->.
    assert (Hk : k <> 0) by congruence.
    split; intros Hd.
    + assert (Hm : t mod k = 0) by (apply Z.mod_divide; assumption).
      rewrite (print_progress_fires t l s Hn Hk Hm).
      split; reflexivity.
    + apply print_progress_silent with (k := k); trivial.
      intros Hm. apply Hd. apply Z.mod_divide; assumption.
  - intros q ->. apply format_2f_two_decimals.
  - intros q ->. apply format_2f_nearest_hundredth.
  - intros ->. reflexivity.
Qed.

End Properties.

(** ** The calls made by [run] *)

Section RunCalls.

Variables (S Args : Type) (cls : PyClass S Args).

Lemma on_fst_inv {A} (m : M S A) (s : S) (log : list (call Args)) st' r :
  on_fst m (s, log) = (st', r) ->
  m s = (fst st', r) /\ snd st' = log.
Proof.
  unfold on_fst. simpl. destruct (m s) as [s' r']. intros H.
  inversion H; subst. split; reflexivity.
Qed.

Lemma record_run (c : call Args) (s : S) (log : list (call Args)) :
  record c (s, log) = ((s, log ++ [c]), Ok tt).
Proof. reflexivity. Qed.

(** One turn of the loop of [run], when it does not raise, records the
    update with the loss it returned and then the progress call with the
    same loss. *)
Lemma observed_body (t : Z) (s : S) (log : list (call Args)) st' :
  (loss <- update (observed cls) ;; print_progress (observed cls) t loss)
    (s, log) = (st', Ok tt) ->
  exists l s1,
    update cls s = (s1, Ok l) /\
    print_progress cls t l s1 = (fst st', Ok tt) /\
    snd st' = log ++ [call_update l; call_print_progress t l].
Proof.
  intros H.
  apply bind_Ok_inv in H. destruct H as ([s1 log1] & l & Hu & Hp).
  simpl in Hu. apply bind_Ok_inv in Hu.
  destruct Hu as ([s2 log2] & l2 & Hu & Hr).
  apply on_fst_inv in Hu. simpl in Hu. destruct Hu as [Hu ->].
  unfold bind in Hr. rewrite record_run in Hr. unfold ret in Hr.
  inversion Hr; subst. clear Hr.
  simpl in Hp. unfold bind in Hp. rewrite record_run in Hp.
  apply on_fst_inv in Hp. destruct Hp as [Hp Hlog].
  exists l, s1. split; [exact Hu |]. split; [exact Hp |].
  rewrite Hlog, <- app_assoc. reflexivity.
Qed.

Lemma observed_loop (n a : nat) (s : S) (log : list (call Args)) st' :
  for_each (map Z.of_nat (seq a n))
    (fun t => loss <- update (observed cls) ;;
              print_progress (observed cls) t loss) (s, log) = (st', Ok tt) ->
  exists losses,
    List.length losses = n /\
    snd st' = log ++ loop_calls (Z.of_nat a) losses.
Proof.
  revert a s log. induction n as [| n IH]; intros a s log H.
  - simpl in H. inversion H; subst. exists []. simpl.
    rewrite app_nil_r. split; reflexivity.
  - simpl in H. apply bind_Ok_inv in H.
    destruct H as ([s1 log1] & [] & Hb & Hrest).
    apply observed_body in Hb. destruct Hb as (l & s2 & _ & _ & Hlog).
    simpl in Hlog. subst log1.
    apply IH in Hrest. destruct Hrest as (losses & Hlen & Hsnd).
    exists (l :: losses). split; [simpl; congruence |].
    rewrite Hsnd, <- app_assoc. simpl.
    replace (Z.of_nat a + 1) with (Z.of_nat (Datatypes.S a)) by lia.
    reflexivity.
Qed.

(** The log of a run that no method interrupts. *)
Lemma observed_run_log (args : Args) (s : S) (st' : S * list (call Args)) :
  run (observed cls) args (s, []) = (st', Ok tt) ->
  exists (s1 s2 : S) (n_iter : Z) (losses : list pyfloat),
    initialize cls args s = (s1, Ok tt) /\
    self_n_iter cls s1 = (s2, Ok n_iter) /\
    List.length losses = Z.to_nat (n_iter + 1) /\
    snd st' =
      call_initialize args :: loop_calls 0 losses ++ [call_finalize].
Proof.
  intros Hrun. unfold run in Hrun.
  apply bind_Ok_inv in Hrun. destruct Hrun as ([sa loga] & [] & Hi & Hrun).
  simpl in Hi. unfold bind in Hi. rewrite record_run in Hi.
  apply on_fst_inv in Hi. simpl in Hi. destruct Hi as [Hi ->].
  apply bind_Ok_inv in Hrun. destruct Hrun as ([sb logb] & n & Hr & Hrun).
  simpl in Hr. apply on_fst_inv in Hr. simpl in Hr. destruct Hr as [Hr ->].
  apply bind_Ok_inv in Hrun. destruct Hrun as ([sc logc] & [] & Hloop & Hfin).
  unfold range in Hloop. apply observed_loop in Hloop.
  destruct Hloop as (losses & Hlen & Hlog). simpl in Hlog. subst logc.
  simpl in Hfin. unfold bind in Hfin. rewrite record_run in Hfin.
  apply on_fst_inv in Hfin. destruct Hfin as [_ Hlog].
  exists sa, sb, n, losses.
  repeat (split; [assumption |]).
  rewrite Hlog. reflexivity.
Qed.

(** With [n_iter] below -1 the loop is not entered. *)
Lemma run_calls_negative (args : Args) (s s1 s2 : S) (n_iter : Z)
    (st' : S * list (call Args)) :
  initialize cls args s = (s1, Ok tt) ->
  self_n_iter cls s1 = (s2, Ok n_iter) ->
  n_iter < -1 ->
  run (observed cls) args (s, []) = (st', Ok tt) ->
  snd st' = [call_initialize args; call_finalize].
Proof.
  intros Hinit Hn Hlt Hrun.
  apply observed_run_log in Hrun.
  destruct Hrun as (s1' & s2' & n & losses & Hi & Hr & Hlen & Hlog).
  rewrite Hinit in Hi. inversion Hi; subst s1'.
  rewrite Hn in Hr. inversion Hr; subst s2' n.
  replace (Z.to_nat (n_iter + 1)) with 0%nat in Hlen by lia.
  destruct losses; [| discriminate Hlen]. exact Hlog.
Qed.

(** C1: [run] first calls [initialize] with its arguments; then, [n_iter]
    being the value of [self.n_iter] once [initialize] has returned, it
    calls [update] exactly [n_iter + 1] times, each call followed at once by
    [print_progress(t, loss)] with [t] counting from 0 to [n_iter] and
    [loss] the value this [update] returned; then it calls [finalize], once.
    The calls are those recorded by the instrumented class, on a run that
    no method interrupts by raising. *)
Theorem run_calls (args : Args) (s s1 s2 : S) (n_iter : Z)
    (st' : S * list (call Args)) :
  initialize cls args s = (s1, Ok tt) ->
  self_n_iter cls s1 = (s2, Ok n_iter) ->
  -1 <= n_iter ->
  run (observed cls) args (s, []) = (st', Ok tt) ->
  exists losses : list pyfloat,
    Z.of_nat (List.length losses) = n_iter + 1 /\
    snd st' =
      call_initialize args :: loop_calls 0 losses ++ [call_finalize].
Proof.
  intros Hinit Hn Hge Hrun.
  apply observed_run_log in Hrun.
  destruct Hrun as (s1' & s2' & n & losses & Hi & Hr & Hlen & Hlog).
  rewrite Hinit in Hi. inversion Hi; subst s1'.
  rewrite Hn in Hr. inversion Hr; subst s2' n.
  exists losses. split; [lia | exact Hlog].
Qed.

(** *** The log changes nothing *)

Lemma mirrors_on_fst {A} (m : M S A) :
  mirrors (on_fst m : M (S * list (call Args)) A) m.
Proof.
  intros s log. unfold on_fst. simpl. destruct (m s). split; reflexivity.
Qed.

Lemma mirrors_bind {A B} (m' : M (S * list (call Args)) A) (m : M S A)
    (k' : A -> M (S * list (call Args)) B) (k : A -> M S B) :
  mirrors m' m -> (forall a, mirrors (k' a) (k a)) ->
  mirrors (bind m' k') (bind m k).
Proof.
  intros Hm Hk s log. unfold bind.
  specialize (Hm s log).
  destruct (m' (s, log)) as [[s1 log1] r1].
  destruct (m s) as [s2 r2]. simpl in Hm. destruct Hm as [-> ->].
  destruct r2 as [a | e].
  - apply Hk.
  - split; reflexivity.
Qed.

Lemma mirrors_record_before {A} (c : call Args)
    (m' : M (S * list (call Args)) A) (m : M S A) :
  mirrors m' m -> mirrors (record c ;; m') m.
Proof.
  intros Hm s log. unfold bind. rewrite record_run. apply Hm.
Qed.

Lemma mirrors_for_each {T} (ts : list T)
    (body' : T -> M (S * list (call Args)) unit) (body : T -> M S unit) :
  (forall t, mirrors (body' t) (body t)) ->
  mirrors (for_each ts body') (for_each ts body).
Proof.
  intros Hb. induction ts as [| t ts IH].
  - intros s log. split; reflexivity.
  - simpl. apply mirrors_bind; [apply Hb | intros _; exact IH].
Qed.

(** Running the instrumented class is running the class. *)
Lemma observed_run (args : Args) :
  mirrors (run (observed cls) args) (run cls args).
Proof.
  unfold run. apply mirrors_bind.
  - simpl. apply mirrors_record_before, mirrors_on_fst.
  - intros _. apply mirrors_bind; [apply mirrors_on_fst |].
    intros n. apply mirrors_bind.
    + apply mirrors_for_each. intros t. apply mirrors_bind.
      * simpl. intros s log. unfold bind, on_fst. simpl.
        destruct (update cls s) as [s1 [l | e]]; split; reflexivity.
      * intros l. simpl. apply mirrors_record_before, mirrors_on_fst.
    + intros _. simpl. apply mirrors_record_before, mirrors_on_fst.
Qed.

(** *** When [run] returns *)

Lemma for_each_returns {T} (Inv : S -> Prop) (body : T -> M S unit)
    (ts : list T) (s : S) :
  Inv s ->
  (forall t s0, Inv s0 -> exists s1, body t s0 = (s1, Ok tt) /\ Inv s1) ->
  exists s', for_each ts body s = (s', Ok tt) /\ Inv s'.
Proof.
  intros Hs Hb. revert s Hs. induction ts as [| t ts IH]; intros s Hs.
  - exists s. split; [reflexivity | exact Hs].
  - destruct (Hb t s Hs) as (s1 & Hr & H1).
    destruct (IH s1 H1) as (s' & Hr' & H').
    exists s'. split; [| exact H'].
    simpl. erewrite bind_Ok by exact Hr. exact Hr'.
Qed.

(** [run] returns as soon as [initialize] does and establishes a condition
    that each turn of the loop keeps and under which no method raises. *)
Lemma run_returns (Inv : S -> Prop) (args : Args) (s s1 s2 : S) (n_iter : Z) :
  initialize cls args s = (s1, Ok tt) ->
  self_n_iter cls s1 = (s2, Ok n_iter) ->
  Inv s2 ->
  (forall t s0, Inv s0 ->
     exists sa l sb,
       update cls s0 = (sa, Ok l) /\
       print_progress cls t l sa = (sb, Ok tt) /\ Inv sb) ->
  (forall s0, Inv s0 -> exists s', finalize cls s0 = (s', Ok tt)) ->
  exists s', run cls args s = (s', Ok tt).
Proof.
  intros Hinit Hn H2 Hbody Hfin.
  unfold run. erewrite bind_Ok by exact Hinit. erewrite bind_Ok by exact Hn.
  destruct (@for_each_returns Z Inv
              (fun t => loss <- update cls ;; print_progress cls t loss)
              (range (n_iter + 1)) s2 H2) as (s3 & Hloop & H3).
  - intros t s0 H0. destruct (Hbody t s0 H0) as (sa & l & sb & Hu & Hp & Hb).
    exists sb. split; [| exact Hb]. erewrite bind_Ok by exact Hu. exact Hp.
  - erewrite bind_Ok by exact Hloop. apply Hfin. exact H3.
Qed.

End RunCalls.

(** ** What the loss builders assign *)

Section Builders.

Context {C : Collaborators}.

Ltac step_builder :=
  match goal with
  | |- context [match ?x with _ => _ end] =>
      lazymatch x with
      | context [match _ with _ => _ end] => fail
      | _ => destruct x eqn:?; cbn
      end
  end.

Ltac builder_frame :=
  intros s;
  cbv beta delta [bind attr ret raise assign modify gets lift_result
                  data_sample variational_sample_minibatch model_log_lik
                  pack_layers];
  cbn; repeat step_builder;
  (split; [unfold settings_kept; cbn; repeat split; reflexivity | reflexivity]).

Lemma frame_VariationalInference_build_loss :
  builds_only_loss VariationalInference_build_loss.
Proof. unfold VariationalInference_build_loss. builder_frame. Qed.

Lemma frame_build_score_loss : builds_only_loss MFVI_build_score_loss.
Proof. unfold MFVI_build_score_loss. builder_frame. Qed.

Lemma frame_build_reparam_loss : builds_only_loss MFVI_build_reparam_loss.
Proof. unfold MFVI_build_reparam_loss. builder_frame. Qed.

Lemma frame_build_score_loss_kl : builds_only_loss MFVI_build_score_loss_kl.
Proof. unfold MFVI_build_score_loss_kl. builder_frame. Qed.

Lemma frame_build_reparam_loss_kl : builds_only_loss MFVI_build_reparam_loss_kl.
Proof. unfold MFVI_build_reparam_loss_kl. builder_frame. Qed.

Lemma frame_build_score_loss_entropy :
  builds_only_loss MFVI_build_score_loss_entropy.
Proof. unfold MFVI_build_score_loss_entropy. builder_frame. Qed.

Lemma frame_build_reparam_loss_entropy :
  builds_only_loss MFVI_build_reparam_loss_entropy.
Proof. unfold MFVI_build_reparam_loss_entropy. builder_frame. Qed.

Lemma frame_KLpq_build_loss : builds_only_loss KLpq_build_loss.
Proof. unfold KLpq_build_loss. builder_frame. Qed.

Lemma frame_MAP_build_loss : builds_only_loss MAP_build_loss.
Proof. unfold MAP_build_loss. builder_frame. Qed.

Lemma frame_Laplace_build_loss : builds_only_loss Laplace_build_loss.
Proof. unfold Laplace_build_loss. builder_frame. Qed.

Lemma frame_MFVI_build_loss : builds_only_loss MFVI_build_loss.
Proof.
  intros s. unfold MFVI_build_loss, bind, attr, gets.
  destruct (score (self s)) as [[|] |] eqn:Hs; cbn.
  - destruct (analytic_kl (self s)).
    + apply frame_build_score_loss_kl.
    + apply frame_build_score_loss.
  - destruct (analytic_kl (self s)).
    + apply frame_build_reparam_loss_kl.
    + apply frame_build_reparam_loss.
  - split; [unfold settings_kept; repeat split; reflexivity | reflexivity].
Qed.

(** ** [initialize] *)

Lemma initialize_unfold (bl : M State tensor) (a : VIArgs) (s : State) :
  VariationalInference_initialize bl a s =
    match bl (entered a s) with
    | (s1, Raise e) => (s1, Raise e)
    | (s1, Ok l) =>
        match a_optimizer a, a_scope a with
        | Some _, Some _ => (s1, Raise not_supported)
        | Some _, None =>
            if has_prettytensor then
              engine initialize_all_variables
                {| self :=
                     set_train
                       (pt_apply_optimizer
                          (AdamOptimizer (constant_rate (1 # 100)) (Some 1%Q))
                          [l]) (self s1);
                   world := world s1 |}
            else (s1, Raise (NameError "pt"))
        | None, sc =>
            engine initialize_all_variables
              {| self :=
                   set_train
                     (minimize
                        (AdamOptimizer
                           (exponential_decay (1 # 10) (t_variable 0 false)
                              100 (9 # 10) true) None)
                        l (t_variable 0 false) (TrainableVariables sc))
                     (self s1);
                 world := world s1 |}
        end
    end.
Proof.
  unfold VariationalInference_initialize.
  cbv beta delta [bind assign modify prettytensor ret raise].
  cbn [self world].
  change {| self := _; world := world s |} with (entered a s).
  destruct (bl (entered a s)) as [s1 [l | e]]; [| reflexivity].
  destruct (a_optimizer a) as [o |]; [| reflexivity].
  destruct (a_scope a) as [sc |]; [reflexivity |].
  destruct has_prettytensor; reflexivity.
Qed.

(** [initialize] with a loss builder of the module: the arguments are
    stored, whatever happens next; constructor attributes, [score] and
    [n_minibatch] are not touched. *)
Lemma initialize_settings (bl : M State tensor) (a : VIArgs) (s : State) :
  builds_only_loss bl ->
  let o' := self (fst (VariationalInference_initialize bl a s)) in
  n_iter o' = Some (a_n_iter a) /\ n_data o' = Some (a_n_data a) /\
  n_print o' = Some (a_n_print a) /\
  model o' = model (self s) /\ data o' = data (self s) /\
  variational o' = variational (self s) /\
  score o' = score (self s) /\ n_minibatch o' = n_minibatch (self s).
Proof.
  intros Hbl. rewrite initialize_unfold.
  destruct (Hbl (entered a s)) as [Hk _].
  destruct (bl (entered a s)) as [s1 [l | e]]; cbn [fst] in Hk.
  - unfold settings_kept in Hk. cbn in Hk.
    destruct Hk as (? & ? & ? & ? & ? & ? & ? & ? & ?).
    destruct (a_optimizer a); [destruct (a_scope a) |];
      [| destruct has_prettytensor |]; cbn; repeat split; assumption.
  - unfold settings_kept in Hk. cbn in Hk.
    destruct Hk as (? & ? & ? & ? & ? & ? & ? & ? & ?).
    cbn. repeat split; assumption.
Qed.

(** A custom optimizer together with a scope: [initialize] raises once the
    loss is built, in the state the loss builder left. *)
Lemma initialize_not_supported (bl : M State tensor) (a : VIArgs)
    (s s1 : State) (l : tensor) (opt sc : string) :
  a_optimizer a = Some opt -> a_scope a = Some sc ->
  bl (entered a s) = (s1, Ok l) ->
  VariationalInference_initialize bl a s = (s1, Raise not_supported).
Proof.
  intros Ho Hs Hb. rewrite initialize_unfold, Hb, Ho, Hs. reflexivity.
Qed.

(** C3 (amended): with both a custom optimizer and a variable scope,
    [initialize] raises the "not supported" error, and a [run] stops there.
    It does so after the arguments [n_iter], [n_data], [n_print] were stored
    and the loss was built, and before a train step is assigned: the train
    step is the one the instance had before, and on an instance that had
    none [update] raises. *)
Theorem initialize_optimizer_and_scope (bl : M State tensor) (a : VIArgs)
    (s s1 : State) (l : tensor) (opt sc : string) :
  builds_only_loss bl ->
  a_optimizer a = Some opt -> a_scope a = Some sc ->
  bl (entered a s) = (s1, Ok l) ->
  VariationalInference_initialize bl a s = (s1, Raise not_supported) /\
  (forall cls : PyClass State VIArgs,
     initialize cls = VariationalInference_initialize bl ->
     run cls a s = (s1, Raise not_supported)) /\
  n_iter (self s1) = Some (a_n_iter a) /\
  n_data (self s1) = Some (a_n_data a) /\
  n_print (self s1) = Some (a_n_print a) /\
  train (self s1) = train (self s) /\
  (train (self s) = None ->
     snd (VariationalInference_update s1) = Raise (AttributeError "train") /\
     exists name, snd (MFVI_update s1) = Raise (AttributeError name)).
Proof.
  intros Hbl Ho Hs Hb.
  assert (Hraise : VariationalInference_initialize bl a s =
                     (s1, Raise not_supported))
    by (eapply initialize_not_supported; eassumption).
  split; [exact Hraise |].
  split.
  { intros cls Hcls. unfold run. rewrite Hcls.
    apply bind_Raise. exact Hraise. }
  destruct (Hbl (entered a s)) as [Hk _]. rewrite Hb in Hk.
  unfold settings_kept in Hk. cbn in Hk.
  destruct Hk as (_ & _ & _ & Hi & Hd & Hp & Ht & _ & _).
  repeat (split; [assumption |]).
  intros Hnone. rewrite Hnone in Ht.
  unfold VariationalInference_update, MFVI_update, bind, attr, engine, modify.
  cbn [self world fst snd]. rewrite Ht.
  split; [reflexivity |].
  destruct (zs (self s1)); cbn; rewrite ?Ht; eexists; reflexivity.
Qed.

(** ** [MFVI]: the choice of the estimator and of the loss *)

Lemma MFVI_initialize_score (a : MFVIArgs) (s : State) :
  score (self (fst (MFVI_initialize a s))) =
    Some (match a_score a with
          | None => negb (is_reparam (variational (self s)))
          | Some _ => true
          end).
Proof.
  unfold MFVI_initialize.
  cbv beta delta [bind gets assign modify].
  destruct (a_score a) as [b |]; [| destruct (is_reparam (variational (self s)))];
    cbn [negb];
    match goal with
    | |- context [VariationalInference_initialize ?bl ?args ?st] =>
        destruct (initialize_settings args st frame_MFVI_build_loss)
          as (_ & _ & _ & _ & _ & _ & Hs & _);
        destruct (VariationalInference_initialize bl args st) as [s2 r] eqn:E;
        cbn [fst] in Hs; destruct r; cbn [fst]; rewrite Hs; reflexivity
    end.
Qed.

(** An explicit [score] flag, [True] or [False], always gives the
    score-function estimator: [score=False] on a reparameterizable family
    does not fall back to the reparameterization estimator that the
    docstring of [initialize] announces as the default. *)
Lemma MFVI_initialize_explicit_flag (a : MFVIArgs) (s : State) (b : bool) :
  a_score a = Some b ->
  selected_estimator (self (fst (MFVI_initialize a s))) = Some score_function.
Proof.
  intros Hb. unfold selected_estimator.
  rewrite MFVI_initialize_score, Hb. reflexivity.
Qed.

(** C2 (amended): [MFVI.initialize] selects the reparameterization
    estimator when no [score] flag is given and the family is
    reparameterizable, and the score-function estimator when no flag is
    given and the family is not; [score=True] selects the score-function
    estimator for every family; [score=False] on a family that is not
    reparameterizable selects the score-function estimator. *)
Theorem MFVI_initialize_estimator (a : MFVIArgs) (s : State) :
  let v := variational (self s) in
  let chosen := selected_estimator (self (fst (MFVI_initialize a s))) in
  (a_score a = None -> is_reparam v = true ->
     chosen = Some reparameterization) /\
  (a_score a = None -> is_reparam v = false ->
     chosen = Some score_function) /\
  (a_score a = Some true -> chosen = Some score_function) /\
  (a_score a = Some false -> is_reparam v = false ->
     chosen = Some score_function).
Proof.
  cbv zeta. unfold selected_estimator. rewrite MFVI_initialize_score.
  repeat split.
  - intros -> ->. reflexivity.
  - intros -> ->. reflexivity.
  - intros ->. reflexivity.
  - intros -> _. reflexivity.
Qed.

Ltac builder_result H :=
  cbv beta delta [bind attr ret raise assign modify gets lift_result
                  data_sample variational_sample_minibatch model_log_lik
                  pack_layers] in H;
  cbn in H;
  repeat match type of H with
         | context [match ?x with _ => _ end] =>
             lazymatch x with
             | context [match _ with _ => _ end] => fail
             | _ => destruct x eqn:?; cbn in H
             end
         end;
  inversion H; subst; reflexivity.

Lemma shape_build_score_loss s s' r :
  MFVI_build_score_loss s = (s', Ok r) -> negated_sum r = false.
Proof. unfold MFVI_build_score_loss. intros H. builder_result H. Qed.

Lemma shape_build_reparam_loss s s' r :
  MFVI_build_reparam_loss s = (s', Ok r) -> negated_sum r = false.
Proof. unfold MFVI_build_reparam_loss. intros H. builder_result H. Qed.

Lemma shape_build_score_loss_kl s s' r :
  MFVI_build_score_loss_kl s = (s', Ok r) -> negated_sum r = false.
Proof. unfold MFVI_build_score_loss_kl. intros H. builder_result H. Qed.

Lemma shape_build_reparam_loss_kl s s' r :
  MFVI_build_reparam_loss_kl s = (s', Ok r) -> negated_sum r = false.
Proof. unfold MFVI_build_reparam_loss_kl. intros H. builder_result H. Qed.

Lemma shape_build_score_loss_entropy s s' r :
  MFVI_build_score_loss_entropy s = (s', Ok r) -> negated_sum r = true.
Proof. unfold MFVI_build_score_loss_entropy. intros H. builder_result H. Qed.

Lemma shape_build_reparam_loss_entropy s s' r :
  MFVI_build_reparam_loss_entropy s = (s', Ok r) -> negated_sum r = true.
Proof. unfold MFVI_build_reparam_loss_entropy. intros H. builder_result H. Qed.

Lemma MFVI_build_loss_table (s : State) (b : bool) :
  score (self s) = Some b ->
  MFVI_build_loss s =
    match b, analytic_kl (self s) with
    | true, true => MFVI_build_score_loss_kl s
    | true, false => MFVI_build_score_loss s
    | false, true => MFVI_build_reparam_loss_kl s
    | false, false => MFVI_build_reparam_loss s
    end.
Proof.
  intros Hs. unfold MFVI_build_loss, bind, attr, gets. rewrite Hs.
  destruct b, (analytic_kl (self s)); reflexivity.
Qed.

(** C4: with the estimator chosen ([self.score] set), [build_loss] is one of
    four builders, by the table: analytic-KL score loss for the score
    estimator when the family is Gaussian ([is_normal]) and the model has
    [log_lik], plain score loss for the score estimator when the family is
    not Gaussian or the model has no [log_lik], analytic-KL reparam loss for
    the reparameterization estimator when the family is Gaussian and the
    model has [log_lik], plain reparam loss otherwise.  What it returns is
    never what an analytic-entropy builder returns. *)
Theorem MFVI_build_loss_dispatch (s : State) (b : bool) :
  score (self s) = Some b ->
  let gaussian := is_normal (variational (self s)) in
  let with_log_lik := has_log_lik (model (self s)) in
  (b = true -> gaussian = true -> with_log_lik = true ->
     MFVI_build_loss s = MFVI_build_score_loss_kl s) /\
  (b = true -> gaussian = false \/ with_log_lik = false ->
     MFVI_build_loss s = MFVI_build_score_loss s) /\
  (b = false -> gaussian = true -> with_log_lik = true ->
     MFVI_build_loss s = MFVI_build_reparam_loss_kl s) /\
  (b = false -> gaussian = false \/ with_log_lik = false ->
     MFVI_build_loss s = MFVI_build_reparam_loss s) /\
  (forall s' r, MFVI_build_loss s = (s', Ok r) ->
     MFVI_build_score_loss_entropy s <> (s', Ok r) /\
     MFVI_build_reparam_loss_entropy s <> (s', Ok r)).
Proof.
  intros Hs. cbv zeta. pose proof (MFVI_build_loss_table s Hs) as T.
  assert (Hyes : is_normal (variational (self s)) = true ->
                 has_log_lik (model (self s)) = true ->
                 analytic_kl (self s) = true).
  { intros H1 H2. unfold analytic_kl. rewrite H1, H2. reflexivity. }
  assert (Hno : is_normal (variational (self s)) = false \/
                has_log_lik (model (self s)) = false ->
                analytic_kl (self s) = false).
  { intros [H | H]; unfold analytic_kl; rewrite H;
      [reflexivity | apply andb_false_r]. }
  split; [| split; [| split; [| split]]].
  - intros -> H1 H2. rewrite (Hyes H1 H2) in T. exact T.
  - intros -> H. rewrite (Hno H) in T. exact T.
  - intros -> H1 H2. rewrite (Hyes H1 H2) in T. exact T.
  - intros -> H. rewrite (Hno H) in T. exact T.
  - intros s' r Hr.
    assert (Hshape : negated_sum r = false).
    { rewrite T in Hr. destruct b, (analytic_kl (self s)).
      - eapply shape_build_score_loss_kl; eassumption.
      - eapply shape_build_score_loss; eassumption.
      - eapply shape_build_reparam_loss_kl; eassumption.
      - eapply shape_build_reparam_loss; eassumption. }
    split; intros He.
    + apply shape_build_score_loss_entropy in He. congruence.
    + apply shape_build_reparam_loss_entropy in He. congruence.
Qed.

(** ** The score-function loss and the importance-weighted loss *)

(** C5: [build_score_loss] draws [x] from the data source and [z] from the
    variational family, takes [logw] to be the model log-density of [(x, z)]
    minus the variational log-density taken at a frozen copy of [z], sets
    the reported loss to the mean of [logw], and returns minus the mean of
    that variational log-density times a frozen copy of [logw].  Gradients
    reach the variational log-density factor, and neither [logw], nor the
    model log-density, nor the sample [z]; in value the result is minus the
    mean of [log_prob_q(z) * logw]. *)
Theorem build_score_loss_spec (s : State) (nd : option Z) (nm : Z) :
  n_data (self s) = Some nd ->
  n_minibatch (self s) = Some nm ->
  let x := t_data_sample nd in
  let z := t_q_sample (Some nm) in
  let q_log_prob := t_q_log_prob (stop_gradient z) in
  let logw := t_sub (t_model_log_prob x z) q_log_prob in
  let objective :=
    t_neg (t_reduce_mean (t_mul q_log_prob (t_stop_gradient logw))) in
  MFVI_build_score_loss s =
    ({| self := set_loss (t_reduce_mean logw) (set_zs z (self s));
        world := world s |}, Ok objective) /\
  loss (self (fst (MFVI_build_score_loss s))) = Some (t_reduce_mean logw) /\
  zs (self (fst (MFVI_build_score_loss s))) = Some z /\
  snd (MFVI_build_score_loss s) = Ok objective /\
  In q_log_prob (grad_nodes objective) /\
  ~ In logw (grad_nodes objective) /\
  ~ In (t_model_log_prob x z) (grad_nodes objective) /\
  ~ In z (grad_nodes objective) /\
  (forall I : Interp,
     eval I (t_reduce_mean logw) =
       eval I (t_reduce_mean (t_sub (t_model_log_prob x z) (t_q_log_prob z))) /\
     eval I objective =
       eval I (t_neg (t_reduce_mean
                 (t_mul (t_q_log_prob z)
                        (t_sub (t_model_log_prob x z) (t_q_log_prob z)))))).
Proof.
  intros Hd Hm. cbv zeta.
  match goal with
  | |- ?lhs = ?rhs /\ _ => assert (Hrun : lhs = rhs)
  end.
  { unfold MFVI_build_score_loss, data_sample, variational_sample_minibatch,
      bind, attr, ret, assign, modify.
    rewrite Hd. cbn [self world]. rewrite Hm. reflexivity. }
  split; [exact Hrun |].
  rewrite Hrun. cbn [fst snd self].
  split; [reflexivity |]. split; [reflexivity |]. split; [reflexivity |].
  split; [| split; [| split; [| split]]].
  - cbn. auto.
  - cbn. intuition discriminate.
  - cbn. intuition discriminate.
  - cbn. intuition discriminate.
  - intros I. split; reflexivity.
Qed.

(** C6: [KLpq.build_loss] takes [logw] to be the model log-density of
    [(x, z)] minus the variational log-density taken at a frozen copy of
    [z], normalizes in the log domain, [logw_norm = logw - logsumexp(logw)]
    and [w_norm = exp(logw_norm)], sets the reported loss to the mean of
    [w_norm * logw], and returns minus the mean of that variational
    log-density times a frozen copy of [w_norm]: gradients reach the
    variational log-density factor and not [w_norm], and in value the result
    is minus the mean of [log_prob_q(z) * w_norm]. *)
Theorem KLpq_build_loss_spec (s : State) (nd : option Z) (nm : Z) :
  n_data (self s) = Some nd ->
  n_minibatch (self s) = Some nm ->
  let x := t_data_sample nd in
  let z := t_q_sample (Some nm) in
  let q_log_prob := t_q_log_prob (stop_gradient z) in
  let logw := t_sub (t_model_log_prob x z) q_log_prob in
  let logw_norm := t_sub logw (log_sum_exp logw) in
  let w_norm := t_exp logw_norm in
  let objective :=
    t_neg (t_reduce_mean (t_mul q_log_prob (t_stop_gradient w_norm))) in
  KLpq_build_loss s =
    ({| self := set_loss (t_reduce_mean (t_mul w_norm logw))
                  (set_zs z (self s));
        world := world s |}, Ok objective) /\
  loss (self (fst (KLpq_build_loss s))) =
    Some (t_reduce_mean (t_mul w_norm logw)) /\
  zs (self (fst (KLpq_build_loss s))) = Some z /\
  snd (KLpq_build_loss s) = Ok objective /\
  In q_log_prob (grad_nodes objective) /\
  ~ In w_norm (grad_nodes objective) /\
  ~ In logw (grad_nodes objective) /\
  ~ In z (grad_nodes objective) /\
  (forall I : Interp,
     let logw_value := t_sub (t_model_log_prob x z) (t_q_log_prob z) in
     let w_norm_value :=
       t_exp (t_sub logw_value (log_sum_exp logw_value)) in
     eval I (t_reduce_mean (t_mul w_norm logw)) =
       eval I (t_reduce_mean (t_mul w_norm_value logw_value)) /\
     eval I objective =
       eval I (t_neg (t_reduce_mean (t_mul (t_q_log_prob z) w_norm_value)))).
Proof.
  intros Hd Hm. cbv zeta.
  match goal with
  | |- ?lhs = ?rhs /\ _ => assert (Hrun : lhs = rhs)
  end.
  { unfold KLpq_build_loss, data_sample, variational_sample_minibatch,
      bind, attr, ret, assign, modify.
    rewrite Hd. cbn [self world]. rewrite Hm. reflexivity. }
  split; [exact Hrun |].
  rewrite Hrun. cbn [fst snd self].
  split; [reflexivity |]. split; [reflexivity |]. split; [reflexivity |].
  split; [| split; [| split; [| split]]].
  - cbn. auto.
  - cbn. intuition discriminate.
  - cbn. intuition discriminate.
  - cbn. intuition discriminate.
  - intros I. split; reflexivity.
Qed.

End Builders.

(** ** Normalized importance weights, in exact arithmetic *)

Section Weights.

Local Open Scope R_scope.

Lemma Rsum_exp_pos (x : R) (v : list R) : 0 < Rsum (map exp (x :: v)).
Proof.
  revert x. induction v as [| y v IH]; intros x.
  - simpl. pose proof (exp_pos x). lra.
  - change (0 < exp x + Rsum (map exp (y :: v))).
    pose proof (exp_pos x). pose proof (IH y). lra.
Qed.

Lemma Rsum_map_scale (c : R) (f : R -> R) (v : list R) :
  Rsum (map (fun x => f x * c) v) = Rsum (map f v) * c.
Proof.
  induction v as [| y v IH]; simpl.
  - lra.
  - rewrite IH. lra.
Qed.

Lemma Rsum_exp_shift (m : R) (v : list R) :
  Rsum (map (fun xi => exp (xi - m)) v) = Rsum (map exp v) * exp (- m).
Proof.
  rewrite <- Rsum_map_scale. f_equal. apply map_ext. intros a.
  unfold Rminus. apply exp_plus.
Qed.

(** Taking the maximum out changes nothing in exact arithmetic. *)
Lemma log_sum_exp_list_eq (x : R) (v : list R) :
  log_sum_exp_list x v = ln (Rsum (map exp (x :: v))).
Proof.
  unfold log_sum_exp_list. cbv zeta.
  rewrite Rsum_exp_shift.
  rewrite ln_mult by (apply Rsum_exp_pos || apply exp_pos).
  rewrite ln_exp. lra.
Qed.

Lemma exp_minus_ln (l t : R) : 0 < t -> exp (l - ln t) = exp l / t.
Proof.
  intros Ht. unfold Rminus. rewrite exp_plus, exp_Ropp, exp_ln by assumption.
  reflexivity.
Qed.

Lemma ln_exp_div (l t : R) : 0 < t -> ln (exp l / t) = l - ln t.
Proof.
  intros Ht. unfold Rdiv.
  rewrite ln_mult by (apply exp_pos || apply Rinv_0_lt_compat; assumption).
  rewrite ln_exp, ln_Rinv by assumption. lra.
Qed.

Lemma Rsum_softmax (x : R) (v : list R) : Rsum (softmax (x :: v)) = 1.
Proof.
  unfold softmax. set (t := Rsum (map exp (x :: v))).
  assert (Ht : 0 < t) by apply Rsum_exp_pos.
  unfold Rdiv. rewrite Rsum_map_scale. fold t. field. lra.
Qed.

Lemma eval_log_w_norm (I : Interp) (log_w : tensor) (x : R) (v : list R) :
  eval I log_w = Some (Vector (x :: v)) ->
  eval I (KLpq_log_w_norm log_w) =
    Some (Vector (map (fun l => l - log_sum_exp_list x v) (x :: v))).
Proof.
  intros H. unfold KLpq_log_w_norm, log_sum_exp.
  cbn [eval]. rewrite H. reflexivity.
Qed.

(** C7: for a vector [logw] of unnormalized log-weights, the weights
    [w_norm = exp(logw - logsumexp(logw))] that [KLpq] builds are, in exact
    arithmetic, the softmax of [logw]; they sum to 1, and
    [logw - logsumexp(logw)] is the logarithm of the softmax. *)
Theorem KLpq_weights_normalized (I : Interp) (log_w : tensor) (logw : list R) :
  logw <> [] ->
  eval I log_w = Some (Vector logw) ->
  exists w_norm : list R,
    eval I (KLpq_w_norm log_w) = Some (Vector w_norm) /\
    Rsum w_norm = 1 /\
    w_norm = softmax logw /\
    eval I (KLpq_log_w_norm log_w) = Some (Vector (map ln (softmax logw))).
Proof.
  intros Hne H. destruct logw as [| x v]; [contradiction |].
  pose proof (eval_log_w_norm I log_w H) as Hn.
  assert (Ht : 0 < Rsum (map exp (x :: v))) by apply Rsum_exp_pos.
  assert (Hw : map exp (map (fun l => l - log_sum_exp_list x v) (x :: v)) =
               softmax (x :: v)).
  { unfold softmax. rewrite map_map. apply map_ext. intros l.
    rewrite log_sum_exp_list_eq. apply exp_minus_ln. exact Ht. }
  exists (softmax (x :: v)). split; [| split; [| split]].
  - unfold KLpq_w_norm. cbn [eval]. rewrite Hn. cbn [obind pointwise].
    rewrite Hw. reflexivity.
  - apply Rsum_softmax.
  - reflexivity.
  - rewrite Hn. do 2 f_equal. unfold softmax. rewrite map_map.
    apply map_ext. intros l.
    rewrite log_sum_exp_list_eq. symmetry. apply ln_exp_div. exact Ht.
Qed.

End Weights.

(** ** [MAP] and [Laplace] *)

Section PointEstimates.

Context {C : Collaborators}.

Lemma MAP_build_loss_run (s : State) (nd : option Z) :
  n_data (self s) = Some nd ->
  let log_joint := t_squeeze (t_model_log_prob (t_data_sample nd) (t_q_sample None)) in
  MAP_build_loss s =
    ({| self := set_loss log_joint (self s); world := world s |},
     Ok (t_neg log_joint)).
Proof.
  intros Hd. unfold MAP_build_loss, data_sample, bind, attr, ret, assign, modify.
  rewrite Hd. reflexivity.
Qed.

Lemma MAP_init_declared (m : Model) (d : Data) (params : option tensor)
    (w : World) (n : Z) :
  num_vars m = Some n ->
  MAP_init m d params w =
    (with_session w,
     Ok (new_instance m
           (Variational_add Variational_new (PointMass (var_scope w) n params))
           d)).
Proof.
  intros Hn. unfold MAP_init, model_num_vars. rewrite Hn. reflexivity.
Qed.

Lemma Laplace_init_declared (m : Model) (d : Data) (params : option tensor)
    (w : World) (n : Z) :
  num_vars m = Some n ->
  Laplace_init m d params w =
    (with_session w,
     Ok (new_instance m
           (Variational_add Variational_new
              (PointMass (var_scope w ++ ["variational"]) n params))
           d)).
Proof.
  intros Hn. unfold Laplace_init, model_num_vars. rewrite Hn. reflexivity.
Qed.

(** C9: [Laplace.build_loss] is [MAP.build_loss]: on every instance both
    do the same, which is, when [n_data] is set, to store as the loss the
    squeezed model log-density of the data sample and of the one sample of
    the point mass, and to return its negation.  For a model that declares
    [num_vars], the instances that the two constructors build are the same
    except for the scope under which the point mass is built: the scopes
    open at the call for [MAP], and ["variational"] below them for
    [Laplace]. *)
Theorem Laplace_build_loss_MAP_build_loss :
  (forall s : State, Laplace_build_loss s = MAP_build_loss s) /\
  (forall (s : State) (nd : option Z),
     n_data (self s) = Some nd ->
     let log_joint :=
       t_squeeze (t_model_log_prob (t_data_sample nd) (t_q_sample None)) in
     Laplace_build_loss s =
       ({| self := set_loss log_joint (self s); world := world s |},
        Ok (t_neg log_joint))) /\
  (forall (m : Model) (d : Data) (params : option tensor) (w : World) (n : Z),
     num_vars m = Some n ->
     let family scope :=
       Variational_add Variational_new (PointMass scope n params) in
     MAP_init m d params w =
       (with_session w, Ok (new_instance m (family (var_scope w)) d)) /\
     Laplace_init m d params w =
       (with_session w,
        Ok (new_instance m (family (var_scope w ++ ["variational"])) d))).
Proof.
  split; [| split].
  - intros s. reflexivity.
  - intros s nd Hd. apply MAP_build_loss_run. exact Hd.
  - intros m d params w n Hn. split.
    + apply MAP_init_declared. exact Hn.
    + apply Laplace_init_declared. exact Hn.
Qed.

(** C10: for a model without [num_vars], [MAP(model, data, params)] builds
    an instance whose family is the empty family with one point mass of
    size 0 and default parameters added, whatever [params] is, whose model
    and data are the arguments and which has no other attribute; and
    [Laplace(model, data, params)] raises [AttributeError] on the read of
    [model.num_vars], with nothing built. *)
Theorem init_without_num_vars (m : Model) (d : Data) (params : option tensor)
    (w : World) :
  num_vars m = None ->
  MAP_init m d params w =
    (with_session w,
     Ok (new_instance m
           (Variational_add Variational_new (PointMass (var_scope w) 0 None))
           d)) /\
  (exists o : Instance,
     MAP_init m d params w = (with_session w, Ok o) /\
     variational o =
       Variational_add Variational_new (PointMass (var_scope w) 0 None) /\
     model o = m /\ data o = d /\
     n_iter o = None /\ n_data o = None /\ n_print o = None /\
     loss o = None /\ train o = None /\ zs o = None /\
     score o = None /\ n_minibatch o = None) /\
  (forall params' : option tensor,
     MAP_init m d params' w = MAP_init m d params w) /\
  Laplace_init m d params w = (w, Raise (AttributeError "num_vars")).
Proof.
  intros Hn.
  assert (Hmap : forall p,
            MAP_init m d p w =
              (with_session w,
               Ok (new_instance m
                     (Variational_add Variational_new
                        (PointMass (var_scope w) 0 None)) d))).
  { intros p. unfold MAP_init. rewrite Hn. reflexivity. }
  split; [apply Hmap |]. split; [| split].
  - eexists. split; [apply Hmap |]. cbn. repeat split; reflexivity.
  - intros params'. rewrite !Hmap. reflexivity.
  - unfold Laplace_init, model_num_vars, with_variable_scope, bind.
    rewrite Hn. destruct w. reflexivity.
Qed.

End PointEstimates.

(** ** A whole run of [MAP] *)

Section RunOfMAP.

Context {C : Collaborators}.

Lemma MAP_initialize_returns (a : VIArgs) (s : State) :
  a_optimizer a = None ->
  exists s1,
    initialize MAP_class a s = (s1, Ok tt) /\
    n_iter (self s1) = Some (a_n_iter a) /\ runnable a s1.
Proof.
  intros Ho. simpl. rewrite initialize_unfold.
  rewrite (@MAP_build_loss_run _ (entered a s) (a_n_data a)) by reflexivity.
  rewrite Ho. eexists. split; [reflexivity |].
  unfold runnable. cbn. repeat split; eexists; reflexivity.
Qed.

Lemma update_keeps_runnable (a : VIArgs) (s : State) :
  (forall e tr l f, exists e' v, sess_run e tr l f = (e', Ok v)) ->
  runnable a s ->
  exists s1 l,
    VariationalInference_update s = (s1, Ok l) /\ self s1 = self s.
Proof.
  intros Hrun ((tr & Ht) & (l & Hl) & _).
  unfold VariationalInference_update, bind, attr, engine, modify.
  cbn [self world tf stdout var_scope]. rewrite Ht.
  cbn [self world tf stdout var_scope]. rewrite Hl.
  cbn [self world tf stdout var_scope].
  destruct (Hrun (get_session (tf (world s))) tr l None) as (e' & v & He).
  rewrite He. eexists _, v. split; reflexivity.
Qed.

Lemma print_progress_keeps_runnable (a : VIArgs) (t : Z) (l : pyfloat)
    (s : State) :
  a_n_print a <> Some 0 ->
  n_print (self s) = Some (a_n_print a) ->
  exists s1,
    VariationalInference_print_progress t l s = (s1, Ok tt) /\
    self s1 = self s.
Proof.
  intros H0 Hn. destruct (a_n_print a) as [k |] eqn:Hk.
  - assert (Hk0 : k <> 0) by congruence.
    destruct (Z.eq_dec (t mod k) 0) as [Hm | Hm].
    + rewrite (print_progress_fires t l s Hn Hk0 Hm).
      eexists. split; reflexivity.
    + rewrite (print_progress_silent t l s Hn Hk0 Hm).
      eexists. split; reflexivity.
  - rewrite (print_progress_disabled t l s Hn). eexists. split; reflexivity.
Qed.

(** With the default optimizer, a print interval other than zero and an
    engine whose steps do not fail, [run] on a [MAP] object returns, after
    [n_iter + 1] updates. *)
Lemma MAP_run_calls (a : VIArgs) (s : State) :
  (forall e tr l f, exists e' v, sess_run e tr l f = (e', Ok v)) ->
  a_optimizer a = None ->
  a_n_print a <> Some 0 ->
  -1 <= a_n_iter a ->
  exists st' losses,
    run (observed MAP_class) a (s, []) = (st', Ok tt) /\
    Z.of_nat (List.length losses) = a_n_iter a + 1 /\
    snd st' = call_initialize a :: loop_calls 0 losses ++ [call_finalize].
Proof.
  intros Hengine Ho Hp Hge.
  destruct (MAP_initialize_returns a s Ho) as (s1 & Hinit & Hn & Hr1).
  assert (Hread : self_n_iter MAP_class s1 = (s1, Ok (a_n_iter a))).
  { simpl. unfold attr. rewrite Hn. reflexivity. }
  destruct (@run_returns _ _ MAP_class (runnable a) a s s1 s1 (a_n_iter a)
              Hinit Hread Hr1) as (s' & Hrun).
  - intros t s0 H0.
    destruct (update_keeps_runnable Hengine H0) as (sa & l & Hu & Hsa).
    assert (Ha : runnable a sa) by (unfold runnable in *; rewrite Hsa; exact H0).
    destruct Ha as (Htr & Hl & Hnp).
    destruct (print_progress_keeps_runnable a t l sa Hp Hnp) as (sb & Hpp & Hsb).
    exists sa, l, sb. split; [exact Hu |]. split; [exact Hpp |].
    unfold runnable. rewrite Hsb. repeat split; assumption.
  - intros s0 _. exists s0. reflexivity.
  - destruct (observed_run MAP_class a s []) as [_ Hsnd].
    rewrite Hrun in Hsnd. simpl in Hsnd.
    destruct (run (observed MAP_class) a (s, [])) as [st' r] eqn:Hobs.
    simpl in Hsnd. subst r.
    destruct (observed_run_log _ _ _ Hobs)
      as (s1' & s2' & n & losses & Hi & Hrd & Hlen & Hlog).
    rewrite Hinit in Hi. inversion Hi; subst s1'.
    rewrite Hread in Hrd. inversion Hrd; subst s2' n.
    exists st', losses. split; [reflexivity |]. split; [lia | exact Hlog].
Qed.

End RunOfMAP.

(** ** The properties on concrete runs *)

Lemma run_calls_witness :
  exists losses : list pyfloat,
    Z.of_nat (List.length losses) = 2 + 1 /\
    snd (fst (run (observed (@MAP_class ex_collaborators)) ex_args_short
                (ex_map_state, []))) =
      call_initialize ex_args_short :: loop_calls 0 losses ++ [call_finalize].
Proof.
  apply (@run_calls _ _ (@MAP_class ex_collaborators) ex_args_short ex_map_state
           (fst (initialize (@MAP_class ex_collaborators) ex_args_short
                   ex_map_state))
           (fst (initialize (@MAP_class ex_collaborators) ex_args_short
                   ex_map_state))
           2).
  - vm_compute. reflexivity.
  - vm_compute. reflexivity.
  - lia.
  - vm_compute. reflexivity.
Defined.

Lemma print_progress_spec_witness :
  n_print (self ex_ready_state) = Some (Some 100) /\
  stdout (world (fst (VariationalInference_print_progress 200
                        (Finite (-7 # 3)) ex_ready_state))) =
    ["iter 200 loss -2.33"; "q"] /\
  stdout (world (fst (VariationalInference_print_progress 300 NegativeZero
                        ex_ready_state))) =
    ["iter 300 loss -0.00"; "q"] /\
  VariationalInference_print_progress 250 (Finite (5 # 4)) ex_ready_state =
    (ex_ready_state, Ok tt).
Proof.
  assert (Hn : n_print (self ex_ready_state) = Some (Some 100))
    by (vm_compute; reflexivity).
  assert (H0 : Some 100 <> Some 0) by discriminate.
  split; [exact Hn |]. split; [| split].
  - destruct (@print_progress_spec ex_collaborators 200 (Finite (-7 # 3))
                ex_ready_state (Some 100) Hn H0) as (_ & H & _).
    destruct (H 100 eq_refl) as [Hfire _].
    destruct Hfire as [_ Hout]; [exists 2; reflexivity |].
    rewrite Hout. vm_compute. reflexivity.
  - destruct (@print_progress_spec ex_collaborators 300 NegativeZero
                ex_ready_state (Some 100) Hn H0) as (_ & H & _).
    destruct (H 100 eq_refl) as [Hfire _].
    destruct Hfire as [_ Hout]; [exists 3; reflexivity |].
    rewrite Hout. vm_compute. reflexivity.
  - destruct (@print_progress_spec ex_collaborators 250 (Finite (5 # 4))
                ex_ready_state (Some 100) Hn H0) as (_ & H & _).
    destruct (H 100 eq_refl) as [_ Hsilent].
    apply Hsilent. intros [q Hq]. lia.
Defined.

(** C3, as stated, fails: after the rejected call the instance is not as it
    was before the call, the arguments and a loss have been stored. *)
Lemma initialize_failure_keeps_assignments :
  let s := ex_map_state in
  let r := VariationalInference_initialize MAP_build_loss
             ex_args_scoped_optimizer s in
  snd r = Raise not_supported /\
  n_iter (self s) = None /\ n_iter (self (fst r)) = Some 1000 /\
  loss (self s) = None /\
  loss (self (fst r)) =
    Some (t_squeeze (t_model_log_prob (t_data_sample None) (t_q_sample None))) /\
  fst r <> s.
Proof.
  cbv zeta. repeat split; try (vm_compute; reflexivity).
  intros H. apply (f_equal (fun st => n_iter (self st))) in H.
  vm_compute in H. discriminate H.
Qed.

Lemma initialize_optimizer_and_scope_witness :
  let s := ex_map_state in
  let r := VariationalInference_initialize MAP_build_loss
             ex_args_scoped_optimizer s in
  snd r = Raise not_supported /\
  n_iter (self (fst r)) = Some 1000 /\
  train (self (fst r)) = None /\
  snd (VariationalInference_update (fst r)) = Raise (AttributeError "train").
Proof.
  cbv zeta.
  destruct (@initialize_optimizer_and_scope ex_collaborators MAP_build_loss
              ex_args_scoped_optimizer ex_map_state
              (fst (MAP_build_loss (entered ex_args_scoped_optimizer ex_map_state)))
              (t_neg (t_squeeze (t_model_log_prob (t_data_sample None)
                                   (t_q_sample None))))
              "prettytensor" "variational"
              frame_MAP_build_loss eq_refl eq_refl)
    as (Hr & _ & Hi & _ & _ & Ht & Hu).
  - vm_compute. reflexivity.
  - rewrite Hr. cbn [fst snd].
    split; [reflexivity |]. split; [exact Hi |].
    split; [rewrite Ht; reflexivity |].
    apply Hu. reflexivity.
Defined.

(** C2, as stated, fails: [score=False] does not select the
    reparameterization estimator. *)
Lemma score_false_selects_score_function :
  let a := {| a_n_minibatch := 1; a_score := Some false;
              a_rest := VIArgs_default |} in
  let s := ex_mfvi_state ex_family_score in
  is_reparam (variational (self s)) = false /\
  selected_estimator (self (fst (MFVI_initialize a s))) = Some score_function /\
  selected_estimator (self (fst (MFVI_initialize a s))) <>
    Some reparameterization.
Proof.
  cbv zeta. split; [reflexivity |]. split.
  - vm_compute. reflexivity.
  - vm_compute. discriminate.
Qed.

Lemma MFVI_initialize_estimator_witness :
  selected_estimator
    (self (fst (MFVI_initialize MFVIArgs_default (ex_mfvi_state ex_family_normal))))
    = Some reparameterization /\
  selected_estimator
    (self (fst (MFVI_initialize MFVIArgs_default (ex_mfvi_state ex_family_score))))
    = Some score_function.
Proof.
  split.
  - destruct (@MFVI_initialize_estimator ex_collaborators MFVIArgs_default
                (ex_mfvi_state ex_family_normal)) as (H & _).
    apply H; reflexivity.
  - destruct (@MFVI_initialize_estimator ex_collaborators MFVIArgs_default
                (ex_mfvi_state ex_family_score)) as (_ & H & _).
    apply H; reflexivity.
Defined.

Lemma MFVI_build_loss_dispatch_witness :
  let kl :=
    kl_multivariate_normal (t_pack [t_ref "loc"]) (t_pack [t_ref "scale"]) in
  let x := t_data_sample None in
  let z := t_q_sample (Some 5) in
  (* the Gaussian family and a model with [log_lik], both estimators *)
  snd (MFVI_build_loss (with_self (set_score true (self ex_kl_state))
                          ex_kl_state)) =
    Ok (t_neg (t_sub (t_reduce_mean
                        (t_mul (t_q_log_prob (stop_gradient z))
                           (t_stop_gradient (t_model_log_lik x z))))
                     kl)) /\
  snd (MFVI_build_loss (with_self (set_score false (self ex_kl_state))
                          ex_kl_state)) =
    Ok (t_neg (t_sub (t_reduce_mean (t_model_log_lik x z)) kl)) /\
  (* a family that is not Gaussian *)
  MFVI_build_loss (ex_mfvi_ready ex_family_score true) =
    MFVI_build_score_loss (ex_mfvi_ready ex_family_score true) /\
  (* the Gaussian family and a model without [log_lik] *)
  snd (MFVI_build_loss (ex_mfvi_ready ex_family_normal false)) =
    Ok (t_neg (t_reduce_mean
                 (t_sub (t_model_log_prob x z) (t_q_log_prob z)))).
Proof.
  cbv zeta. split; [| split; [| split]].
  - destruct (@MFVI_build_loss_dispatch ex_collaborators
                (with_self (set_score true (self ex_kl_state)) ex_kl_state)
                true eq_refl) as (H & _).
    rewrite (H eq_refl eq_refl eq_refl). vm_compute. reflexivity.
  - destruct (@MFVI_build_loss_dispatch ex_collaborators
                (with_self (set_score false (self ex_kl_state)) ex_kl_state)
                false eq_refl) as (_ & _ & H & _).
    rewrite (H eq_refl eq_refl eq_refl). vm_compute. reflexivity.
  - destruct (@MFVI_build_loss_dispatch ex_collaborators
                (ex_mfvi_ready ex_family_score true) true eq_refl)
      as (_ & H & _).
    apply H; [reflexivity | left; reflexivity].
  - destruct (@MFVI_build_loss_dispatch ex_collaborators
                (ex_mfvi_ready ex_family_normal false) false eq_refl)
      as (_ & _ & _ & H & _).
    rewrite (H eq_refl (or_intror eq_refl)). vm_compute. reflexivity.
Defined.

Lemma build_score_loss_spec_witness :
  let s := ex_mfvi_ready ex_family_score true in
  let x := t_data_sample None in
  let z := t_q_sample (Some 5) in
  let logw := t_sub (t_model_log_prob x z) (t_q_log_prob (stop_gradient z)) in
  n_data (self s) = Some None /\ n_minibatch (self s) = Some 5 /\
  loss (self s) = None /\
  loss (self (fst (MFVI_build_score_loss s))) = Some (t_reduce_mean logw) /\
  zs (self (fst (MFVI_build_score_loss s))) = Some z /\
  snd (MFVI_build_score_loss s) =
    Ok (t_neg (t_reduce_mean
          (t_mul (t_q_log_prob (stop_gradient z)) (t_stop_gradient logw)))).
Proof.
  cbv zeta. split; [reflexivity |]. split; [reflexivity |].
  split; [reflexivity |].
  destruct (@build_score_loss_spec ex_collaborators
              (ex_mfvi_ready ex_family_score true) None 5 eq_refl eq_refl)
    as (_ & Hl & Hz & Hr & _).
  split; [exact Hl |]. split; [exact Hz | exact Hr].
Defined.

Lemma KLpq_build_loss_spec_witness :
  let s := ex_mfvi_ready ex_family_score true in
  let x := t_data_sample None in
  let z := t_q_sample (Some 5) in
  let logw := t_sub (t_model_log_prob x z) (t_q_log_prob (stop_gradient z)) in
  let w_norm := t_exp (t_sub logw (log_sum_exp logw)) in
  n_data (self s) = Some None /\ n_minibatch (self s) = Some 5 /\
  loss (self s) = None /\
  loss (self (fst (KLpq_build_loss s))) =
    Some (t_reduce_mean (t_mul w_norm logw)) /\
  zs (self (fst (KLpq_build_loss s))) = Some z /\
  snd (KLpq_build_loss s) =
    Ok (t_neg (t_reduce_mean
          (t_mul (t_q_log_prob (stop_gradient z)) (t_stop_gradient w_norm)))).
Proof.
  cbv zeta. split; [reflexivity |]. split; [reflexivity |].
  split; [reflexivity |].
  destruct (@KLpq_build_loss_spec ex_collaborators
              (ex_mfvi_ready ex_family_score true) None 5 eq_refl eq_refl)
    as (_ & Hl & Hz & Hr & _).
  split; [exact Hl |]. split; [exact Hz | exact Hr].
Defined.

Lemma KLpq_weights_normalized_witness :
  exists w_norm : list R,
    eval ex_interp (KLpq_w_norm (t_ref "logw")) = Some (Vector w_norm) /\
    Rsum w_norm = 1%R.
Proof.
  destruct (@KLpq_weights_normalized ex_interp (t_ref "logw") [0%R; 0%R])
    as (w & Hw & Hs & _).
  - discriminate.
  - reflexivity.
  - exists w. split; assumption.
Defined.

Lemma Laplace_build_loss_MAP_build_loss_witness :
  Laplace_build_loss ex_ready_state = MAP_build_loss ex_ready_state /\
  snd (@Laplace_init ex_collaborators ex_model Data_default None ex_world) =
    Ok (new_instance ex_model
          (Variational_add Variational_new
             (PointMass ["variational"] 2 None)) Data_default).
Proof.
  destruct (@Laplace_build_loss_MAP_build_loss ex_collaborators)
    as (Heq & _ & Hinit).
  split; [apply Heq |].
  destruct (Hinit ex_model Data_default None ex_world 2 eq_refl) as [_ Hl].
  rewrite Hl. reflexivity.
Defined.

Lemma init_without_num_vars_witness :
  num_vars ex_model_bare = None /\
  (exists o : @Instance ex_collaborators,
     snd (@MAP_init ex_collaborators ex_model_bare Data_default
            (Some (t_ref "start")) ex_world) = Ok o /\
     ex_layers (variational o) = [ex_point_mass [] 0 None] /\
     model o = ex_model_bare /\ data o = Data_default /\ train o = None) /\
  snd (@Laplace_init ex_collaborators ex_model_bare Data_default
         (Some (t_ref "start")) ex_world) = Raise (AttributeError "num_vars").
Proof.
  split; [reflexivity |].
  destruct (@init_without_num_vars ex_collaborators ex_model_bare Data_default
              (Some (t_ref "start")) ex_world eq_refl)
    as (_ & (o & Ho & Hv & Hm & Hd & _ & _ & _ & _ & Ht & _) & _ & Hl).
  split.
  - exists o. rewrite Ho. split; [reflexivity |].
    split; [rewrite Hv; reflexivity |].
    split; [exact Hm |]. split; [exact Hd | exact Ht].
  - rewrite Hl. reflexivity.
Defined.

(* ===================================================================== *)
(** * Further properties of the module *)
(* ===================================================================== *)

(** ** [initialize], path by path *)

Section InitializePaths.

Context {C : Collaborators}.

(** The base class is abstract: [run] raises the [NotImplementedError] of
    [build_loss] from within [initialize], once the arguments are stored and
    the loss reset; [initialize] is the only call made. *)
Theorem base_class_run_not_implemented (a : VIArgs) (s : State) :
  run (observed VariationalInference_class) a (s, []) =
    ((entered a s, [call_initialize a]), Raise (NotImplementedError "")) /\
  run VariationalInference_class a s =
    (entered a s, Raise (NotImplementedError "")) /\
  train (self (entered a s)) = train (self s) /\
  world (entered a s) = world s.
Proof.
  assert (H : VariationalInference_initialize VariationalInference_build_loss
                a s = (entered a s, Raise (NotImplementedError ""))).
  { rewrite initialize_unfold. reflexivity. }
  split; [| split; [| split; reflexivity]].
  - unfold run. cbn [initialize observed]. unfold bind at 1.
    unfold bind at 1. rewrite record_run. unfold on_fst. cbn [fst snd].
    change (initialize VariationalInference_class a s) with
      (VariationalInference_initialize VariationalInference_build_loss a s).
    rewrite H. reflexivity.
  - unfold run. apply bind_Raise. exact H.
Qed.

(** [MAP.initialize] without a custom optimizer returns, whatever the
    instance was before: the arguments are stored, the loss is the squeezed
    log-joint of one data sample and the point-mass sample, the train step
    is Adam with the decaying rate on the negated loss over the trainable
    variables of the scope, and the variables are initialized. *)
Theorem MAP_initialize_default_optimizer (a : VIArgs) (s : State) :
  a_optimizer a = None ->
  let l := log_joint (a_n_data a) in
  let o' :=
    set_train (default_train (t_neg l) (a_scope a))
      (set_loss l
         (set_n_print (a_n_print a)
            (set_n_data (a_n_data a) (set_n_iter (a_n_iter a) (self s))))) in
  initialize MAP_class a s =
    (with_engine (initialize_all_variables (tf (world s))) (with_self o' s),
     Ok tt).
Proof.
  intros Ho. cbv zeta. cbn [initialize MAP_class].
  rewrite initialize_unfold.
  rewrite (@MAP_build_loss_run _ (entered a s) (a_n_data a)) by reflexivity.
  rewrite Ho. reflexivity.
Qed.

(** [MAP.initialize] with a custom optimizer and no scope: when PrettyTensor
    was imported the train step is [pt.apply_optimizer] of Adam(0.01,
    epsilon 1.0) on the negated loss; when it was not, the call raises
    [NameError] on [pt], after the loss was built, with no train step
    assigned and no variable initialized. *)
Theorem MAP_initialize_custom_optimizer (a : VIArgs) (s : State) (opt : string) :
  a_optimizer a = Some opt ->
  a_scope a = None ->
  let l := log_joint (a_n_data a) in
  let built :=
    set_loss l
      (set_n_print (a_n_print a)
         (set_n_data (a_n_data a) (set_n_iter (a_n_iter a) (self s)))) in
  initialize MAP_class a s =
    if has_prettytensor then
      (with_engine (initialize_all_variables (tf (world s)))
         (with_self (set_train (prettytensor_train (t_neg l)) built) s),
       Ok tt)
    else (with_self built s, Raise (NameError "pt")).
Proof.
  intros Ho Hs. cbv zeta. cbn [initialize MAP_class].
  rewrite initialize_unfold.
  rewrite (@MAP_build_loss_run _ (entered a s) (a_n_data a)) by reflexivity.
  rewrite Ho, Hs. destruct has_prettytensor; reflexivity.
Qed.

(** Initializing again discards what an earlier [initialize] stored: the
    instance after [initialize(a)] is the same whether or not another
    [initialize(a0)] came first, returned or raised. *)
Theorem MAP_initialize_again (a0 a : VIArgs) (s : State) :
  a_optimizer a = None ->
  self (fst (initialize MAP_class a (fst (initialize MAP_class a0 s)))) =
  self (fst (initialize MAP_class a s)).
Proof.
  intros Ho. cbn [initialize MAP_class].
  rewrite (initialize_unfold MAP_build_loss a s).
  rewrite (initialize_unfold MAP_build_loss a
             (fst (VariationalInference_initialize MAP_build_loss a0 s))).
  rewrite !(@MAP_build_loss_run _ (entered a _) (a_n_data a)) by reflexivity.
  rewrite Ho. unfold engine, modify. cbn [fst self entered].
  pose proof (@initialize_settings _ MAP_build_loss a0 s frame_MAP_build_loss)
    as H.
  cbv zeta in H.
  destruct H as (_ & _ & _ & Hm & Hd & Hv & Hsc & Hnm).
  assert (Hz : zs (self (fst (VariationalInference_initialize MAP_build_loss a0 s)))
               = zs (self s)).
  { rewrite initialize_unfold.
    rewrite (@MAP_build_loss_run _ (entered a0 s) (a_n_data a0)) by reflexivity.
    destruct (a_optimizer a0); [destruct (a_scope a0) |];
      [| destruct has_prettytensor |]; reflexivity. }
  unfold set_train, set_loss, set_n_print, set_n_data, set_n_iter.
  cbn [model data variational n_iter n_data n_print loss train zs score
       n_minibatch].
  rewrite Hm, Hd, Hv, Hsc, Hnm, Hz. reflexivity.
Qed.

End InitializePaths.

(** ** [update] and [print_progress] on any instance *)

Section UpdateAndProgress.

Context {C : Collaborators}.

Ltac update_cases :=
  try discriminate;
  repeat match goal with
         | H : Some _ = Some _ |- _ => inversion H; clear H; subst
         end.

(** [VariationalInference.update] never assigns an attribute and never
    prints.  It reads [self.train], then [self.loss], and raises
    [AttributeError] on the first that is missing, the session being
    obtained already; with both set it returns, or raises, what the engine
    does on them, with no feed. *)
Theorem VariationalInference_update_spec (s : State) :
  let r := VariationalInference_update s in
  let e := get_session (tf (world s)) in
  self (fst r) = self s /\
  stdout (world (fst r)) = stdout (world s) /\
  var_scope (world (fst r)) = var_scope (world s) /\
  (train (self s) = None ->
     r = (with_engine e s, Raise (AttributeError "train"))) /\
  (forall tr, train (self s) = Some tr -> loss (self s) = None ->
     r = (with_engine e s, Raise (AttributeError "loss"))) /\
  (forall tr l, train (self s) = Some tr -> loss (self s) = Some l ->
     r = (with_engine (fst (sess_run e tr l None)) s,
          snd (sess_run e tr l None))).
Proof.
  cbv zeta.
  unfold VariationalInference_update, bind, attr, engine, modify, with_engine.
  cbn [self world tf stdout var_scope fst snd].
  destruct (train (self s)) as [tr |]; cbn [self world tf stdout var_scope];
    [destruct (loss (self s)) as [l |]; cbn [self world tf stdout var_scope];
       [destruct (sess_run (get_session (tf (world s))) tr l None)
          as [e1 r1] eqn:E |] |];
    cbn; repeat split; intros; update_cases; try rewrite E; reflexivity.
Qed.

(** [MFVI.update] and [KLpq.update] are the same method.  It never assigns
    an attribute and never prints; it reads [self.zs] first, then
    [self.train] and [self.loss], and with the three set it runs the engine
    with the feed made from [self.zs]. *)
Theorem MFVI_update_spec (s : State) :
  let r := MFVI_update s in
  let e := get_session (tf (world s)) in
  KLpq_update s = r /\
  self (fst r) = self s /\
  stdout (world (fst r)) = stdout (world s) /\
  (zs (self s) = None ->
     r = (with_engine e s, Raise (AttributeError "zs"))) /\
  (forall z, zs (self s) = Some z -> train (self s) = None ->
     r = (with_engine e s, Raise (AttributeError "train"))) /\
  (forall z tr l,
     zs (self s) = Some z -> train (self s) = Some tr ->
     loss (self s) = Some l ->
     r = (with_engine (fst (sess_run e tr l (Some z))) s,
          snd (sess_run e tr l (Some z)))).
Proof.
  cbv zeta. split; [reflexivity |].
  unfold MFVI_update, bind, attr, engine, modify, with_engine.
  cbn [self world tf stdout var_scope fst snd].
  destruct (zs (self s)) as [z |]; cbn [self world tf stdout var_scope];
    [destruct (train (self s)) as [tr |]; cbn [self world tf stdout var_scope];
       [destruct (loss (self s)) as [l |];
          cbn [self world tf stdout var_scope];
          [destruct (sess_run (get_session (tf (world s))) tr l (Some z))
             as [e1 r1] eqn:E |] |] |];
    cbn; repeat split; intros; update_cases; try rewrite E; reflexivity.
Qed.

(** [print_progress] only prints: whatever its arguments and the state, it
    returns or raises with the instance and the engine as they were, and the
    output either as it was or longer by the two lines of the report, in
    which case it returned. *)
Theorem print_progress_only_prints (t : Z) (l : pyfloat) (s : State) :
  let r := VariationalInference_print_progress t l s in
  self (fst r) = self s /\
  tf (world (fst r)) = tf (world s) /\
  var_scope (world (fst r)) = var_scope (world s) /\
  (fst r = s \/
   fst r = printed (progress_lines t l s) s /\ snd r = Ok tt).
Proof.
  cbv zeta.
  destruct (n_print (self s)) as [[k |] |] eqn:Hn.
  - destruct (Z.eq_dec k 0) as [-> | Hk].
    + rewrite (print_progress_zero_interval t l s Hn).
      cbn [fst snd]. repeat (split; [reflexivity |]). left; reflexivity.
    + destruct (Z.eq_dec (t mod k) 0) as [Hm | Hm].
      * rewrite (print_progress_fires t l s Hn Hk Hm).
        cbn [fst snd]. repeat (split; [reflexivity |]).
        right; split; reflexivity.
      * rewrite (print_progress_silent t l s Hn Hk Hm).
        cbn [fst snd]. repeat (split; [reflexivity |]). left; reflexivity.
  - rewrite (print_progress_disabled t l s Hn).
    cbn [fst snd]. repeat (split; [reflexivity |]). left; reflexivity.
  - unfold VariationalInference_print_progress, bind, attr. rewrite Hn.
    cbn [fst snd]. repeat (split; [reflexivity |]). left; reflexivity.
Qed.

End UpdateAndProgress.

(** ** The other loss builders of [MFVI] *)

Section OtherBuilders.

Context {C : Collaborators}.

Ltac fields :=
  cbn [self world model data variational n_iter n_data n_print loss train zs
       score n_minibatch set_zs set_loss].

Ltac read_settings Hd Hm :=
  cbv beta delta [bind attr ret raise assign modify gets lift_result
                  data_sample variational_sample_minibatch model_log_lik
                  pack_layers with_self];
  rewrite Hd; cbn [self world]; rewrite Hm; fields.

(** [build_reparam_loss] sets the loss to the mean of the model log-density
    of [(x, z)] minus the variational log-density of [z], and returns its
    negation.  Nothing is frozen: backpropagation from the result reaches
    the sample [z], the model log-density and the variational
    log-density. *)
Theorem build_reparam_loss_spec (s : State) (nd : option Z) (nm : Z) :
  n_data (self s) = Some nd ->
  n_minibatch (self s) = Some nm ->
  let x := t_data_sample nd in
  let z := t_q_sample (Some nm) in
  let l := t_reduce_mean (t_sub (t_model_log_prob x z) (t_q_log_prob z)) in
  MFVI_build_reparam_loss s =
    (with_self (set_loss l (set_zs z (self s))) s, Ok (t_neg l)) /\
  In z (grad_nodes (t_neg l)) /\
  In (t_model_log_prob x z) (grad_nodes (t_neg l)) /\
  In (t_q_log_prob z) (grad_nodes (t_neg l)).
Proof.
  intros Hd Hm. cbv zeta. split; [| cbn; auto 10].
  unfold MFVI_build_reparam_loss. read_settings Hd Hm. reflexivity.
Qed.

(** [build_score_loss_kl], for a model with [log_lik] and layers that all
    have [loc] and [scale]: the loss is the mean log-likelihood minus the
    KL term of the packed locations and scales, and the result is the
    negation of the score-function term minus the same KL term.  The KL
    term is reached by backpropagation; in the score-function term the
    log-likelihood is frozen, and the value of the result is that of
    [-(mean(log_prob_q(z) * log_lik) - KL)]. *)
Theorem build_score_loss_kl_spec (s : State) (nd : option Z) (nm : Z)
    (mus sigmas : list tensor) :
  n_data (self s) = Some nd ->
  n_minibatch (self s) = Some nm ->
  has_log_lik (model (self s)) = true ->
  map_result layer_loc (layers (variational (self s))) = Ok mus ->
  map_result layer_scale (layers (variational (self s))) = Ok sigmas ->
  let x := t_data_sample nd in
  let z := t_q_sample (Some nm) in
  let q_log_prob := t_q_log_prob (stop_gradient z) in
  let p_log_lik := t_model_log_lik x z in
  let kl := kl_multivariate_normal (t_pack mus) (t_pack sigmas) in
  let score_term :=
    t_reduce_mean (t_mul q_log_prob (t_stop_gradient p_log_lik)) in
  MFVI_build_score_loss_kl s =
    (with_self (set_loss (t_sub (t_reduce_mean p_log_lik) kl)
                  (set_zs z (self s))) s,
     Ok (t_neg (t_sub score_term kl))) /\
  In kl (grad_nodes (t_neg (t_sub score_term kl))) /\
  ~ In p_log_lik (grad_nodes score_term) /\
  ~ In z (grad_nodes score_term) /\
  (forall I : Interp,
     eval I (t_neg (t_sub score_term kl)) =
       eval I (t_neg (t_sub (t_reduce_mean (t_mul (t_q_log_prob z) p_log_lik))
                            kl))).
Proof.
  intros Hd Hm Hl Hmu Hsi. cbv zeta.
  split; [| split; [| split; [| split]]].
  - unfold MFVI_build_score_loss_kl. read_settings Hd Hm.
    rewrite Hl. fields. rewrite Hmu. fields. rewrite Hsi. reflexivity.
  - cbn [grad_nodes]. right. right. apply in_or_app. right. left. reflexivity.
  - cbn. intuition discriminate.
  - cbn. intuition discriminate.
  - intros I. reflexivity.
Qed.

(** [build_reparam_loss_kl], under the same conditions: the loss is the mean
    log-likelihood minus the KL term, and the result is its negation. *)
Theorem build_reparam_loss_kl_spec (s : State) (nd : option Z) (nm : Z)
    (mus sigmas : list tensor) :
  n_data (self s) = Some nd ->
  n_minibatch (self s) = Some nm ->
  has_log_lik (model (self s)) = true ->
  map_result layer_loc (layers (variational (self s))) = Ok mus ->
  map_result layer_scale (layers (variational (self s))) = Ok sigmas ->
  let x := t_data_sample nd in
  let z := t_q_sample (Some nm) in
  let l :=
    t_sub (t_reduce_mean (t_model_log_lik x z))
          (kl_multivariate_normal (t_pack mus) (t_pack sigmas)) in
  MFVI_build_reparam_loss_kl s =
    (with_self (set_loss l (set_zs z (self s))) s, Ok (t_neg l)) /\
  In (t_model_log_lik x z) (grad_nodes (t_neg l)) /\
  In z (grad_nodes (t_neg l)).
Proof.
  intros Hd Hm Hl Hmu Hsi. cbv zeta. split; [| cbn; auto 10].
  unfold MFVI_build_reparam_loss_kl. read_settings Hd Hm.
  rewrite Hmu. fields. rewrite Hsi. fields. rewrite Hl. reflexivity.
Qed.

Ltac builder_cases H :=
  cbv beta delta [bind attr ret raise assign modify gets lift_result
                  data_sample variational_sample_minibatch model_log_lik
                  pack_layers] in H;
  cbn in H;
  repeat match type of H with
         | context [match ?x with _ => _ end] =>
             lazymatch x with
             | context [match _ with _ => _ end] => fail
             | _ => destruct x eqn:?; cbn in H
             end
         end;
  inversion H; subst; clear H.

(** The two estimators report the same loss.  When the plain score builder
    and the plain reparam builder both return, the sample is the same and
    the two losses have the same value; the two analytic-KL builders leave
    the very same instance, and so do the two analytic-entropy builders:
    only the returned objectives differ. *)
Theorem estimators_report_same_loss (s : State) :
  (forall s1 s2 r1 r2,
     MFVI_build_score_loss s = (s1, Ok r1) ->
     MFVI_build_reparam_loss s = (s2, Ok r2) ->
     zs (self s1) = zs (self s2) /\
     exists l1 l2,
       loss (self s1) = Some l1 /\ loss (self s2) = Some l2 /\
       forall I : Interp, eval I l1 = eval I l2) /\
  (forall s1 s2 r1 r2,
     MFVI_build_score_loss_kl s = (s1, Ok r1) ->
     MFVI_build_reparam_loss_kl s = (s2, Ok r2) ->
     s1 = s2) /\
  (forall s1 s2 r1 r2,
     MFVI_build_score_loss_entropy s = (s1, Ok r1) ->
     MFVI_build_reparam_loss_entropy s = (s2, Ok r2) ->
     s1 = s2).
Proof.
  split; [| split]; intros s1 s2 r1 r2 H1 H2.
  - unfold MFVI_build_score_loss in H1. unfold MFVI_build_reparam_loss in H2.
    builder_cases H1. builder_cases H2. cbn.
    split; [congruence |].
    eexists _, _. split; [reflexivity |]. split; [reflexivity |].
    intros I. cbn. repeat match goal with
                          | H : _ = Some _ |- _ => rewrite H in *
                          end.
    repeat match goal with
           | H : Some _ = Some _ |- _ => inversion H; clear H; subst
           end.
    reflexivity.
  - unfold MFVI_build_score_loss_kl in H1.
    unfold MFVI_build_reparam_loss_kl in H2.
    builder_cases H1. builder_cases H2.
    repeat match goal with
           | H : _ = _ |- _ => progress (rewrite H in *)
           end.
    congruence.
  - unfold MFVI_build_score_loss_entropy in H1.
    unfold MFVI_build_reparam_loss_entropy in H2.
    builder_cases H1. builder_cases H2. congruence.
Qed.

End OtherBuilders.

(** ** [MFVI.initialize] and [KLpq.initialize] as a whole *)

Section InitializeOfSubclasses.

Context {C : Collaborators}.

(** Which loss [MFVI.initialize] builds, read off its arguments and the
    flags of the collaborators.  [score] and [n_minibatch] are assigned
    first, and the rest is [VariationalInference.initialize] with one
    builder: a reparameterization builder when no [score] flag is given and
    the family is reparameterizable; a score builder when no flag is given
    and the family is not reparameterizable, when the flag is [True], and
    when the flag is [False] on a family that is not reparameterizable; in
    both cases the analytic-KL builder when the family is Gaussian and the
    model has [log_lik], the plain one otherwise. *)
Theorem MFVI_initialize_builds (a : MFVIArgs) (s : State) :
  let v := variational (self s) in
  let m := model (self s) in
  let started b :=
    with_self (set_n_minibatch (a_n_minibatch a) (set_score b (self s))) s in
  let by_reparam := a_score a = None /\ is_reparam v = true in
  let by_score :=
    (a_score a = None /\ is_reparam v = false) \/
    a_score a = Some true \/
    (a_score a = Some false /\ is_reparam v = false) in
  let gaussian := is_normal v = true /\ has_log_lik m = true in
  let plain := is_normal v = false \/ has_log_lik m = false in
  (by_reparam -> gaussian ->
     MFVI_initialize a s =
       VariationalInference_initialize MFVI_build_reparam_loss_kl (a_rest a)
         (started false)) /\
  (by_reparam -> plain ->
     MFVI_initialize a s =
       VariationalInference_initialize MFVI_build_reparam_loss (a_rest a)
         (started false)) /\
  (by_score -> gaussian ->
     MFVI_initialize a s =
       VariationalInference_initialize MFVI_build_score_loss_kl (a_rest a)
         (started true)) /\
  (by_score -> plain ->
     MFVI_initialize a s =
       VariationalInference_initialize MFVI_build_score_loss (a_rest a)
         (started true)).
Proof.
  cbv zeta.
  set (b := match a_score a with
            | None => negb (is_reparam (variational (self s)))
            | Some _ => true
            end).
  set (s0 := with_self (set_n_minibatch (a_n_minibatch a)
                          (set_score b (self s))) s).
  assert (H0 : MFVI_initialize a s =
               VariationalInference_initialize MFVI_build_loss (a_rest a) s0).
  { unfold MFVI_initialize, bind, gets, assign, modify, s0, b, with_self.
    destruct (a_score a) as [f |];
      [| destruct (is_reparam (variational (self s)))]; reflexivity. }
  assert (Hs : score (self (entered (a_rest a) s0)) = Some b) by reflexivity.
  pose proof (MFVI_build_loss_table (entered (a_rest a) s0) Hs) as T.
  change (analytic_kl (self (entered (a_rest a) s0)))
    with (is_normal (variational (self s)) && has_log_lik (model (self s)))
    in T.
  assert (Hb_reparam : a_score a = None /\
                       is_reparam (variational (self s)) = true -> b = false).
  { intros [H1 H2]. unfold b. rewrite H1, H2. reflexivity. }
  assert (Hb_score :
            (a_score a = None /\ is_reparam (variational (self s)) = false) \/
            a_score a = Some true \/
            (a_score a = Some false /\
             is_reparam (variational (self s)) = false) -> b = true).
  { intros [[H1 H2] | [H1 | [H1 H2]]]; unfold b; rewrite H1; try rewrite H2;
      reflexivity. }
  assert (Hplain : is_normal (variational (self s)) = false \/
                   has_log_lik (model (self s)) = false ->
                   is_normal (variational (self s)) &&
                   has_log_lik (model (self s)) = false).
  { intros [H | H]; rewrite H; [reflexivity | apply andb_false_r]. }
  repeat split.
  - intros Hr [G1 G2]. rewrite H0, !initialize_unfold, T.
    rewrite G1, G2. cbn [andb]. unfold s0. rewrite (Hb_reparam Hr).
    reflexivity.
  - intros Hr Hp. rewrite H0, !initialize_unfold, T.
    rewrite (Hplain Hp). unfold s0. rewrite (Hb_reparam Hr). reflexivity.
  - intros Hr [G1 G2]. rewrite H0, !initialize_unfold, T.
    rewrite G1, G2. cbn [andb]. unfold s0. rewrite (Hb_score Hr).
    reflexivity.
  - intros Hr Hp. rewrite H0, !initialize_unfold, T.
    rewrite (Hplain Hp). unfold s0. rewrite (Hb_score Hr). reflexivity.
Qed.

(** [KLpq.initialize] without a custom optimizer returns, whatever the
    instance was before, and leaves it ready for [update]: the sample, the
    loss and the train step are set, and the [update] that follows runs the
    engine on them, with the feed made from the sample. *)
Theorem KLpq_initialize_then_update (a : KLpqArgs) (s : State) :
  a_optimizer (k_rest a) = None ->
  exists (s1 : State) (l objective : tensor),
    KLpq_initialize a s = (s1, Ok tt) /\
    n_minibatch (self s1) = Some (k_n_minibatch a) /\
    n_iter (self s1) = Some (a_n_iter (k_rest a)) /\
    n_print (self s1) = Some (a_n_print (k_rest a)) /\
    zs (self s1) = Some (t_q_sample (Some (k_n_minibatch a))) /\
    loss (self s1) = Some l /\
    train (self s1) = Some (default_train objective (a_scope (k_rest a))) /\
    let e := get_session (tf (world s1)) in
    let step :=
      sess_run e (default_train objective (a_scope (k_rest a))) l
        (Some (t_q_sample (Some (k_n_minibatch a)))) in
    KLpq_update s1 = (with_engine (fst step) s1, snd step).
Proof.
  intros Ho.
  set (s0 := with_self (set_n_minibatch (k_n_minibatch a) (self s)) s).
  eexists _, _, _.
  split.
  { unfold KLpq_initialize, bind, assign, modify.
    change {| self := set_n_minibatch (k_n_minibatch a) (self s);
              world := world s |} with s0.
    rewrite initialize_unfold.
    unfold KLpq_build_loss, data_sample, variational_sample_minibatch, bind,
      attr, ret, assign, modify.
    cbn [self world entered s0 with_self n_data n_minibatch zs set_loss
         set_n_print set_n_data set_n_iter set_n_minibatch set_zs].
    rewrite Ho. reflexivity. }
  repeat (split; [reflexivity |]).
  cbv zeta. unfold KLpq_update, bind, attr, engine, modify, with_engine.
  cbn [self world tf stdout var_scope fst snd zs train loss set_train
       set_loss set_zs].
  destruct (sess_run _ _ _ _) as [e1 r1]. reflexivity.
Qed.

End InitializeOfSubclasses.

(** ** Whole runs: what is printed, and the run of [KLpq] *)

Lemma range_snoc (n : Z) : 0 <= n -> range (n + 1) = range n ++ [n].
Proof.
  intros H. unfold range.
  replace (Z.to_nat (n + 1)) with (Z.to_nat n + 1)%nat by lia.
  rewrite seq_app, map_app. simpl.
  rewrite Z2Nat.id by lia. reflexivity.
Qed.

Lemma total_app (xs ys : list nat) :
  total (xs ++ ys) = (total xs + total ys)%nat.
Proof.
  induction xs as [| x xs IH]; simpl; [reflexivity |].
  rewrite IH. lia.
Qed.

Lemma div_succ_multiple (k n : Z) :
  0 < k -> 0 <= n -> (n + 1) mod k = 0 -> (n + 1) / k = n / k + 1.
Proof.
  intros Hk Hn Hm.
  pose proof (Z.div_mod (n + 1) k ltac:(lia)) as E. rewrite Hm in E.
  assert (Hq : n / k = (n + 1) / k - 1).
  { symmetry. apply Z.div_unique with (r := k - 1); lia. }
  lia.
Qed.

Lemma div_succ_other (k n : Z) :
  0 < k -> 0 <= n -> (n + 1) mod k <> 0 -> (n + 1) / k = n / k.
Proof.
  intros Hk Hn Hm.
  pose proof (Z.div_mod (n + 1) k ltac:(lia)) as E.
  pose proof (Z.mod_pos_bound (n + 1) k Hk) as B.
  apply Z.div_unique with (r := (n + 1) mod k - 1); lia.
Qed.

(** The reports of the iterations [0..n] for an interval [k > 0]: one at
    every multiple of [k], two lines each. *)
Lemma report_lines_total (k n : Z) :
  0 < k -> 0 <= n ->
  total (map (report_lines k) (range (n + 1))) =
    (2 * Z.to_nat (n / k + 1))%nat.
Proof.
  intros Hk Hn. revert n Hn.
  apply (natlike_ind
           (fun n => total (map (report_lines k) (range (n + 1))) =
                     (2 * Z.to_nat (n / k + 1))%nat)).
  - change (range (0 + 1)) with [0]. cbn [map total fold_right].
    unfold report_lines. rewrite Z.mod_0_l by lia.
    rewrite Z.div_0_l by lia. reflexivity.
  - intros n Hn IH. unfold Z.succ.
    rewrite (range_snoc (n := n + 1)) by lia.
    rewrite map_app, total_app, IH. cbn [map total fold_right].
    unfold report_lines.
    destruct (Z.eqb_spec ((n + 1) mod k) 0) as [Hm | Hm].
    + rewrite (div_succ_multiple Hk Hn Hm).
      assert (0 <= n / k) by (apply Z.div_pos; lia). lia.
    + rewrite (div_succ_other Hk Hn Hm).
      assert (0 <= n / k) by (apply Z.div_pos; lia). lia.
Qed.

Section LoopMeasure.

Variables (S Args : Type) (cls : PyClass S Args).
Variables (Inv Post : S -> Prop) (size : S -> nat) (w : Z -> nat).

Lemma for_each_measure (body : Z -> M S unit) (ts : list Z) (s : S) :
  Inv s ->
  (forall t s0, Inv s0 ->
     exists s1, body t s0 = (s1, Ok tt) /\ Inv s1 /\
                size s1 = (size s0 + w t)%nat) ->
  exists s', for_each ts body s = (s', Ok tt) /\ Inv s' /\
             size s' = (size s + total (map w ts))%nat.
Proof.
  intros Hs Hb. revert s Hs. induction ts as [| t ts IH]; intros s Hs.
  - exists s. split; [reflexivity | split; [exact Hs |]].
    cbn [map total fold_right]. rewrite Nat.add_0_r. reflexivity.
  - destruct (Hb t s Hs) as (s1 & Hr & H1 & Hz).
    destruct (IH s1 H1) as (s' & Hr' & H' & Hz').
    exists s'. split; [| split; [exact H' |]].
    + simpl. erewrite bind_Ok by exact Hr. exact Hr'.
    + rewrite Hz', Hz. unfold total. cbn [map fold_right]. lia.
Qed.

(** [run] returns, and a measure of the state has grown by the sum of what
    the turns of the loop add, as soon as [initialize] returns and
    establishes a condition that the turns keep, under which no method
    raises and [finalize] leaves the measure alone; what [finalize]
    establishes holds at the end. *)
Lemma run_measure (args : Args) (s s1 s2 : S) (n_iter : Z) :
  initialize cls args s = (s1, Ok tt) ->
  self_n_iter cls s1 = (s2, Ok n_iter) ->
  Inv s2 ->
  (forall t s0, Inv s0 ->
     exists sa l sb,
       update cls s0 = (sa, Ok l) /\
       print_progress cls t l sa = (sb, Ok tt) /\ Inv sb /\
       size sb = (size s0 + w t)%nat) ->
  (forall s0, Inv s0 ->
     exists s', finalize cls s0 = (s', Ok tt) /\ size s' = size s0 /\
                Post s') ->
  exists s',
    run cls args s = (s', Ok tt) /\ Post s' /\
    size s' = (size s2 + total (map w (range (n_iter + 1))))%nat.
Proof.
  intros Hinit Hn H2 Hbody Hfin.
  unfold run. erewrite bind_Ok by exact Hinit. erewrite bind_Ok by exact Hn.
  destruct (@for_each_measure
              (fun t => loss <- update cls ;; print_progress cls t loss)
              (range (n_iter + 1)) s2 H2) as (s3 & Hloop & H3 & Hz).
  - intros t s0 H0.
    destruct (Hbody t s0 H0) as (sa & l & sb & Hu & Hp & Hb & Hsz).
    exists sb. split; [| split; assumption].
    erewrite bind_Ok by exact Hu. exact Hp.
  - erewrite bind_Ok by exact Hloop.
    destruct (Hfin s3 H3) as (s' & Hf & Hsz & Hpost).
    exists s'. split; [exact Hf | split; [exact Hpost | lia]].
Qed.

End LoopMeasure.

Section WholeRuns.

Context {C : Collaborators}.

Lemma update_runs (a : VIArgs) (s : State) :
  engine_steps -> runnable a s ->
  exists e l, VariationalInference_update s = (with_engine e s, Ok l).
Proof.
  intros Hrun ((tr & Ht) & (l & Hl) & _).
  unfold VariationalInference_update, bind, attr, engine, modify, with_engine.
  cbn [self world tf stdout var_scope]. rewrite Ht.
  cbn [self world tf stdout var_scope]. rewrite Hl.
  cbn [self world tf stdout var_scope].
  destruct (Hrun (get_session (tf (world s))) tr l None) as (e' & v & He).
  rewrite He. exists e', v. reflexivity.
Qed.

Lemma sampled_update_runs (a : VIArgs) (s : State) :
  engine_steps -> runnable_with_sample a s ->
  exists e l, KLpq_update s = (with_engine e s, Ok l).
Proof.
  intros Hrun (((tr & Ht) & (l & Hl) & _) & (z & Hz)).
  unfold KLpq_update, bind, attr, engine, modify, with_engine.
  cbn [self world tf stdout var_scope]. rewrite Hz.
  cbn [self world tf stdout var_scope]. rewrite Ht.
  cbn [self world tf stdout var_scope]. rewrite Hl.
  cbn [self world tf stdout var_scope].
  destruct (Hrun (get_session (tf (world s))) tr l (Some z)) as (e' & v & He).
  rewrite He. exists e', v. reflexivity.
Qed.

(** A turn of the progress report on an instance with the interval [k]:
    the instance stays, the output grows by the lines of the report. *)
Lemma print_progress_lines (t : Z) (l : pyfloat) (s : State) (k : Z) :
  n_print (self s) = Some (Some k) -> k <> 0 ->
  exists s1,
    VariationalInference_print_progress t l s = (s1, Ok tt) /\
    self s1 = self s /\
    List.length (stdout (world s1)) =
      (List.length (stdout (world s)) + report_lines k t)%nat.
Proof.
  intros Hn Hk. unfold report_lines.
  destruct (Z.eqb_spec (t mod k) 0) as [Hm | Hm].
  - rewrite (print_progress_fires t l s Hn Hk Hm).
    eexists. split; [reflexivity |]. split; [reflexivity |].
    unfold printed, progress_lines. cbn [world stdout].
    rewrite length_app. reflexivity.
  - rewrite (print_progress_silent t l s Hn Hk Hm).
    eexists. split; [reflexivity |]. split; [reflexivity |]. lia.
Qed.

Lemma MAP_initialize_ready (a : VIArgs) (s : State) :
  a_optimizer a = None ->
  exists s1,
    initialize MAP_class a s = (s1, Ok tt) /\
    self_n_iter MAP_class s1 = (s1, Ok (a_n_iter a)) /\
    runnable a s1 /\ stdout (world s1) = stdout (world s).
Proof.
  intros Ho. cbn [initialize self_n_iter MAP_class].
  rewrite initialize_unfold.
  rewrite (@MAP_build_loss_run _ (entered a s) (a_n_data a)) by reflexivity.
  rewrite Ho. eexists. split; [reflexivity |].
  split; [reflexivity |]. split; [| reflexivity].
  unfold runnable. cbn. repeat split; eexists; reflexivity.
Qed.

(** A run of [MAP] with a print interval [k > 0], the default optimizer and
    an engine that does not fail returns, having printed one report of two
    lines at each of the iterations [0, k, 2k, ...] up to [n_iter]:
    [2 * (n_iter / k + 1)] lines in all. *)
Theorem MAP_run_reports (a : VIArgs) (s : State) (k : Z) :
  engine_steps ->
  a_optimizer a = None ->
  a_n_print a = Some k ->
  0 < k ->
  0 <= a_n_iter a ->
  exists s',
    run MAP_class a s = (s', Ok tt) /\
    List.length (stdout (world s')) =
      (List.length (stdout (world s)) + 2 * Z.to_nat (a_n_iter a / k + 1))%nat.
Proof.
  intros Hengine Ho Hp Hk Hn.
  destruct (MAP_initialize_ready a s Ho) as (s1 & Hinit & Hread & Hr1 & Hout).
  destruct (@run_measure _ _ MAP_class (runnable a) (fun _ => True)
              (fun st => List.length (stdout (world st))) (report_lines k)
              a s s1 s1 (a_n_iter a) Hinit Hread Hr1)
    as (s' & Hrun & _ & Hsize).
  - intros t s0 H0.
    destruct (update_runs Hengine H0) as (e & l & Hu).
    assert (Ha : runnable a (with_engine e s0)) by exact H0.
    destruct Ha as (Htr & Hl & Hnp). rewrite Hp in Hnp.
    destruct (print_progress_lines t l (with_engine e s0) Hnp ltac:(lia))
      as (sb & Hpp & Hsb & Hlen).
    exists (with_engine e s0), l, sb.
    split; [exact Hu |]. split; [exact Hpp |]. split; [| exact Hlen].
    unfold runnable. rewrite Hsb. exact H0.
  - intros s0 _. exists s0. repeat split.
  - exists s'. split; [exact Hrun |].
    rewrite Hsize, Hout, (report_lines_total Hk Hn). reflexivity.
Qed.

(** A run of [MAP] with [n_print=None] prints nothing, whatever the number
    of iterations. *)
Theorem MAP_run_silent (a : VIArgs) (s : State) :
  engine_steps ->
  a_optimizer a = None ->
  a_n_print a = None ->
  exists s',
    run MAP_class a s = (s', Ok tt) /\
    stdout (world s') = stdout (world s).
Proof.
  intros Hengine Ho Hp.
  destruct (MAP_initialize_ready a s Ho) as (s1 & Hinit & Hread & Hr1 & Hout).
  destruct (@run_measure _ _ MAP_class
              (fun st => runnable a st /\
                         stdout (world st) = stdout (world s))
              (fun st => stdout (world st) = stdout (world s))
              (fun _ => 0%nat) (fun _ => 0%nat)
              a s s1 s1 (a_n_iter a) Hinit Hread (conj Hr1 Hout))
    as (s' & Hrun & Hpost & _).
  - intros t s0 [H0 Hs0].
    destruct (update_runs Hengine H0) as (e & l & Hu).
    assert (Ha : runnable a (with_engine e s0)) by exact H0.
    destruct Ha as (Htr & Hl & Hnp). rewrite Hp in Hnp.
    exists (with_engine e s0), l, (with_engine e s0).
    split; [exact Hu |].
    split; [apply print_progress_disabled; exact Hnp |].
    split; [split; [exact H0 | exact Hs0] | reflexivity].
  - intros s0 [_ Hs0]. exists s0. repeat split. exact Hs0.
  - exists s'. split; assumption.
Qed.

Lemma KLpq_initialize_ready (a : KLpqArgs) (s : State) :
  a_optimizer (k_rest a) = None ->
  exists s1,
    initialize KLpq_class a s = (s1, Ok tt) /\
    self_n_iter KLpq_class s1 = (s1, Ok (a_n_iter (k_rest a))) /\
    runnable_with_sample (k_rest a) s1.
Proof.
  intros Ho. cbn [initialize self_n_iter KLpq_class].
  unfold KLpq_initialize, bind, assign, modify.
  rewrite initialize_unfold.
  unfold KLpq_build_loss, data_sample, variational_sample_minibatch, bind,
    attr, ret, assign, modify.
  cbn [self world entered n_data n_minibatch zs set_loss
       set_n_print set_n_data set_n_iter set_n_minibatch set_zs].
  rewrite Ho. eexists. split; [reflexivity |].
  split; [reflexivity |].
  unfold runnable_with_sample, runnable. cbn.
  repeat split; eexists; reflexivity.
Qed.

(** A run of [KLpq] with the default optimizer, a print interval other than
    zero and an engine that does not fail returns, after [initialize],
    [n_iter + 1] updates each followed by its progress call, and
    [finalize]. *)
Theorem KLpq_run_calls (a : KLpqArgs) (s : State) :
  engine_steps ->
  a_optimizer (k_rest a) = None ->
  a_n_print (k_rest a) <> Some 0 ->
  -1 <= a_n_iter (k_rest a) ->
  exists st' losses,
    run (observed KLpq_class) a (s, []) = (st', Ok tt) /\
    Z.of_nat (List.length losses) = a_n_iter (k_rest a) + 1 /\
    snd st' = call_initialize a :: loop_calls 0 losses ++ [call_finalize].
Proof.
  intros Hengine Ho Hp Hge.
  destruct (KLpq_initialize_ready a s Ho) as (s1 & Hinit & Hread & Hr1).
  destruct (@run_returns _ _ KLpq_class (runnable_with_sample (k_rest a)) a s
              s1 s1 (a_n_iter (k_rest a)) Hinit Hread Hr1) as (s' & Hrun).
  - intros t s0 H0.
    destruct (sampled_update_runs Hengine H0) as (e & l & Hu).
    assert (Ha : runnable_with_sample (k_rest a) (with_engine e s0))
      by exact H0.
    destruct Ha as ((Htr & Hl & Hnp) & Hz).
    destruct (print_progress_keeps_runnable (k_rest a) t l
                (with_engine e s0) Hp Hnp) as (sb & Hpp & Hsb).
    exists (with_engine e s0), l, sb.
    split; [exact Hu |]. split; [exact Hpp |].
    unfold runnable_with_sample, runnable. rewrite Hsb. exact H0.
  - intros s0 _. exists s0. reflexivity.
  - destruct (observed_run KLpq_class a s []) as [_ Hsnd].
    rewrite Hrun in Hsnd. simpl in Hsnd.
    destruct (run (observed KLpq_class) a (s, [])) as [st' r] eqn:Hobs.
    simpl in Hsnd. subst r.
    destruct (observed_run_log _ _ _ Hobs)
      as (s1' & s2' & n & losses & Hi & Hrd & Hlen & Hlog).
    rewrite Hinit in Hi. inversion Hi; subst s1'.
    rewrite Hread in Hrd. inversion Hrd; subst s2' n.
    exists st', losses. split; [reflexivity |]. split; [lia | exact Hlog].
Qed.

(** [Laplace.finalize] on an instance with [n_data] set prints the header
    ["Precision matrix:"] and then the evaluated Hessian of the model
    log-density of a data sample and the point-mass sample, over the
    trainable variables of the scope ["variational"]; the instance is left
    as it is.  When the evaluation raises, the header is printed already.
    On an instance without [n_data] it raises [AttributeError] and prints
    nothing. *)
Theorem Laplace_finalize_spec (s : State) :
  let e := get_session (tf (world s)) in
  (n_data (self s) = None ->
     Laplace_finalize s = (with_engine e s, Raise (AttributeError "n_data"))) /\
  (forall nd : option Z,
     n_data (self s) = Some nd ->
     let inv_cov :=
       hessian (t_model_log_prob (t_data_sample nd) (t_q_sample None))
         (TrainableVariables (Some "variational")) in
     let header := printed ["Precision matrix:"] (with_engine e s) in
     (forall e' text,
        tensor_eval_str e inv_cov = (e', Ok text) ->
        Laplace_finalize s = (printed [text] (with_engine e' header), Ok tt)) /\
     (forall e' err,
        tensor_eval_str e inv_cov = (e', Raise err) ->
        Laplace_finalize s = (with_engine e' header, Raise err))).
Proof.
  cbv zeta. split.
  - intros Hd.
    unfold Laplace_finalize, data_sample, bind, attr, engine, modify,
      with_engine.
    cbn [self world tf stdout var_scope]. rewrite Hd. reflexivity.
  - intros nd Hd. split; intros e' r He;
      unfold Laplace_finalize, data_sample, print, bind, attr, engine, modify,
        ret, with_engine, printed;
      cbn [self world tf stdout var_scope]; rewrite Hd;
      cbn [self world tf stdout var_scope]; rewrite He; reflexivity.
Qed.

End WholeRuns.

(** ** More on the normalized weights of [KLpq] *)

Section MoreWeights.

Local Open Scope R_scope.

Lemma eval_w_norm_softmax (I : Interp) (log_w : tensor) (x : R) (v : list R) :
  eval I log_w = Some (Vector (x :: v)) ->
  eval I (KLpq_w_norm log_w) = Some (Vector (softmax (x :: v))).
Proof.
  intros H. unfold KLpq_w_norm. cbn [eval].
  rewrite (eval_log_w_norm I log_w H). cbn [obind pointwise].
  do 2 f_equal. unfold softmax. rewrite map_map. apply map_ext. intros l.
  rewrite log_sum_exp_list_eq. apply exp_minus_ln. apply Rsum_exp_pos.
Qed.

(** With a single sample, which is the default of [n_minibatch], the
    normalized weight is 1 whatever the log-weight: as a vector of one
    entry, and as a scalar. *)
Theorem KLpq_single_sample_weight (I : Interp) (log_w : tensor) (x : R) :
  (eval I log_w = Some (Vector [x]) ->
   eval I (KLpq_w_norm log_w) = Some (Vector [1])) /\
  (eval I log_w = Some (Scalar x) ->
   eval I (KLpq_w_norm log_w) = Some (Scalar 1)).
Proof.
  split; intros H.
  - rewrite (eval_w_norm_softmax I log_w H). unfold softmax. cbn [map Rsum fold_right].
    do 3 f_equal. pose proof (exp_pos x). field. lra.
  - unfold KLpq_w_norm, KLpq_log_w_norm, log_sum_exp. cbn [eval].
    rewrite H. cbn [obind log_sum_exp_value elementwise pointwise].
    do 2 f_equal. rewrite log_sum_exp_list_eq. cbn [map Rsum fold_right].
    rewrite Rplus_0_r, ln_exp, Rminus_diag. apply exp_0.
Qed.

Lemma softmax_shift (c : R) (v : list R) :
  softmax (map (fun x => x + c) v) = softmax v.
Proof.
  unfold softmax. rewrite !map_map.
  assert (Hs : Rsum (map (fun x => exp (x + c)) v) = Rsum (map exp v) * exp c).
  { rewrite <- Rsum_map_scale. f_equal. apply map_ext. intros a.
    apply exp_plus. }
  destruct v as [| y v]; [reflexivity |].
  apply map_ext. intros a. rewrite Hs, exp_plus.
  pose proof (Rsum_exp_pos y v). pose proof (exp_pos c).
  field. split; lra.
Qed.

(** The weights do not depend on a constant added to every log-weight:
    a model log-density known up to an additive constant gives the same
    normalized weights. *)
Theorem KLpq_weights_shift (I : Interp) (log_w log_w' : tensor) (c : R)
    (logw : list R) :
  logw <> [] ->
  eval I log_w = Some (Vector logw) ->
  eval I log_w' = Some (Vector (map (fun x => x + c) logw)) ->
  eval I (KLpq_w_norm log_w') = eval I (KLpq_w_norm log_w).
Proof.
  intros Hne H H'. destruct logw as [| x v]; [contradiction |].
  rewrite (eval_w_norm_softmax I log_w H).
  cbn [map] in H'. rewrite (eval_w_norm_softmax I log_w' H').
  change ((x + c) :: map (fun x0 => x0 + c) v)
    with (map (fun x0 => x0 + c) (x :: v)).
  rewrite softmax_shift. reflexivity.
Qed.

End MoreWeights.

(** ** [run] and [initialize], whatever the outcome *)

Section AnyOutcome.

Variables (S Args : Type) (cls : PyClass S Args).

Lemma on_fst_trace {T A} (m : M S A) (s : S) (log : list T) st' r :
  on_fst m (s, log) = (st', r) ->
  m s = (fst st', r) /\ snd st' = log.
Proof.
  unfold on_fst. simpl. destruct (m s) as [s' r']. intros H.
  inversion H; subst. split; reflexivity.
Qed.

Lemma note_run {T} (e : T) (s : S) (log : list T) :
  note e (s, log) = ((s, log ++ [e]), Ok tt).
Proof. reflexivity. Qed.

(** One turn of the loop, returning or raising: the turn is whole, or
    [update] was entered and raised. *)
Lemma traced_body (t : Z) (s : S) (log : list (event Args)) st' r :
  (loss <- update (traced cls) ;; print_progress (traced cls) t loss)
    (s, log) = (st', r) ->
  (exists l,
     snd st' =
       log ++ [enters_update; update_returns l; enters_print_progress t l]) \/
  (snd st' = log ++ [enters_update] /\ exists e, r = Raise e).
Proof.
  unfold bind at 1. cbn [update traced]. unfold bind at 1.
  rewrite note_run. unfold bind at 1.
  destruct (on_fst (update cls) (s, log ++ [enters_update]))
    as [[s1 log1] [l | e]] eqn:Hu;
    apply on_fst_trace in Hu; cbn [fst snd] in Hu; destruct Hu as [_ ->].
  - unfold bind at 1. rewrite note_run. unfold ret.
    cbn [print_progress traced]. unfold bind. rewrite note_run.
    intros H. apply on_fst_trace in H. destruct H as [_ Hlog].
    left. exists l. rewrite Hlog, <- !app_assoc. reflexivity.
  - intros H. inversion H; subst. right. split; [reflexivity |].
    exists e. reflexivity.
Qed.

Lemma traced_loop (n a : nat) (s : S) (log : list (event Args)) st' r :
  for_each (map Z.of_nat (seq a n))
    (fun t => loss <- update (traced cls) ;;
              print_progress (traced cls) t loss) (s, log) = (st', r) ->
  exists losses ending,
    snd st' = log ++ turns (Z.of_nat a) losses ++ ending /\
    (ending = [] \/ ending = [enters_update]) /\
    (List.length losses <= n)%nat /\
    (ending = [enters_update] -> (List.length losses < n)%nat) /\
    (r = Ok tt -> ending = [] /\ List.length losses = n).
Proof.
  revert a s log. induction n as [| n IH]; intros a s log H.
  - simpl in H. inversion H; subst. exists [], []. simpl.
    rewrite app_nil_r. repeat split; auto; try lia.
    intros E; discriminate E.
  - cbn [for_each map seq] in H. unfold bind at 1 in H.
    destruct ((loss <- update (traced cls) ;;
               print_progress (traced cls) (Z.of_nat a) loss) (s, log))
      as [[s1 log1] r1] eqn:Hb.
    apply traced_body in Hb. cbn [snd] in Hb.
    destruct r1 as [[] | e].
    + destruct Hb as [(l & ->) | (_ & e & He)]; [| discriminate He].
      apply IH in H.
      destruct H as (losses & ending & Hsnd & Hend & Hlen & Hlt & Hok).
      exists (l :: losses), ending. split; [| split; [exact Hend |]].
      * rewrite Hsnd, <- !app_assoc. simpl.
        replace (Z.of_nat a + 1) with (Z.of_nat (Datatypes.S a)) by lia.
        reflexivity.
      * split; [simpl; lia |]. split.
        -- intros E. specialize (Hlt E). simpl. lia.
        -- intros Hr. destruct (Hok Hr) as [-> Hl]. split; [reflexivity |].
           simpl. rewrite Hl. reflexivity.
    + inversion H; subst. cbn [snd].
      destruct Hb as [(l & ->) | (-> & _)].
      * exists [l], []. split; [rewrite app_nil_r; reflexivity |].
        split; [left; reflexivity |]. split; [simpl; lia |].
        split; [intros E; discriminate E | intros Hr; discriminate Hr].
      * exists [], [enters_update]. split; [reflexivity |].
        split; [right; reflexivity |]. split; [simpl; lia |].
        split; [intros _; simpl; lia | intros Hr; discriminate Hr].
Qed.

(** Whatever raises, and wherever: [run] enters [initialize], then makes
    whole turns of the loop ([update] entered and returning a loss, the
    progress call entered with the index of the turn and that loss), and
    then stops, or enters [update] once more, which raises, or enters
    [finalize].  A run that returns did enter [finalize].  [update] is
    never entered more than [n_iter + 1] times, and [finalize] is entered
    only after [n_iter + 1] whole turns. *)
Theorem run_events_any_outcome (args : Args) (s : S) :
  let st := run (traced cls) args (s, []) in
  exists (losses : list pyfloat) (ending : list (event Args)),
    snd (fst st) = enters_initialize args :: turns 0 losses ++ ending /\
    (ending = [] \/ ending = [enters_update] \/ ending = [enters_finalize]) /\
    (snd st = Ok tt -> ending = [enters_finalize]) /\
    (forall s1 s2 n_iter,
       initialize cls args s = (s1, Ok tt) ->
       self_n_iter cls s1 = (s2, Ok n_iter) ->
       (List.length losses <= Z.to_nat (n_iter + 1))%nat /\
       (ending = [enters_update] ->
        (List.length losses < Z.to_nat (n_iter + 1))%nat) /\
       (ending = [enters_finalize] ->
        List.length losses = Z.to_nat (n_iter + 1))).
Proof.
  cbv zeta.
  destruct (run (traced cls) args (s, [])) as [[sf logf] r] eqn:Hrun.
  cbn [fst snd]. unfold run in Hrun. unfold bind at 1 in Hrun.
  destruct (initialize (traced cls) args (s, [])) as [[sa loga] ra] eqn:Hi.
  cbn [initialize traced] in Hi. unfold bind in Hi.
  rewrite note_run in Hi. apply on_fst_trace in Hi.
  cbn [fst snd] in Hi. destruct Hi as [Hi ->].
  destruct ra as [[] | e].
  2:{ inversion Hrun; subst. exists [], []. cbn [turns app].
      split; [reflexivity |]. split; [left; reflexivity |].
      split; [intros H; discriminate H |].
      intros s1 s2 n H. rewrite Hi in H. discriminate H. }
  unfold bind at 1 in Hrun.
  destruct (self_n_iter (traced cls) (sa, [] ++ [enters_initialize args]))
    as [[sb logb] rb] eqn:Hn.
  cbn [self_n_iter traced] in Hn. apply on_fst_trace in Hn.
  cbn [fst snd] in Hn. destruct Hn as [Hn ->].
  destruct rb as [n | e].
  2:{ inversion Hrun; subst. exists [], []. cbn [turns app].
      split; [reflexivity |]. split; [left; reflexivity |].
      split; [intros H; discriminate H |].
      intros s1 s2 m H H'. rewrite Hi in H. inversion H; subst.
      rewrite Hn in H'. discriminate H'. }
  assert (Hn' : forall s1 s2 m,
            initialize cls args s = (s1, Ok tt) ->
            self_n_iter cls s1 = (s2, Ok m) -> m = n).
  { intros s1 s2 m H H'. rewrite Hi in H. inversion H; subst.
    rewrite Hn in H'. inversion H'. reflexivity. }
  unfold bind at 1 in Hrun.
  destruct (for_each (range (n + 1))
              (fun t => loss <- update (traced cls) ;;
                        print_progress (traced cls) t loss)
              (sb, [] ++ [enters_initialize args])) as [[sc logc] rc] eqn:Hloop.
  unfold range in Hloop. apply traced_loop in Hloop.
  destruct Hloop as (losses & ending & Hlog & Hend & Hle & Hlt & Hok).
  cbn [snd] in Hlog. subst logc.
  destruct rc as [[] | e].
  - destruct (Hok eq_refl) as [-> Hlen].
    cbn [finalize traced] in Hrun. unfold bind in Hrun.
    rewrite note_run in Hrun. apply on_fst_trace in Hrun.
    cbn [fst snd] in Hrun. destruct Hrun as [Hfin ->].
    exists losses, [enters_finalize].
    split; [rewrite app_nil_r; reflexivity |].
    split; [right; right; reflexivity |].
    split; [reflexivity |].
    intros s1 s2 m H H'. rewrite (Hn' s1 s2 m H H').
    split; [exact Hle |]. split; [intros E; discriminate E |].
    intros _. exact Hlen.
  - inversion Hrun; subst. exists losses, ending.
    split; [reflexivity |].
    split; [destruct Hend as [-> | ->]; auto |].
    split; [intros H; discriminate H |].
    intros s1 s2 m H H'. rewrite (Hn' s1 s2 m H H').
    split; [exact Hle |]. split; [exact Hlt |].
    intros E. destruct Hend as [-> | ->]; discriminate E.
Qed.

End AnyOutcome.

Section InitializeAnyOutcome.

Context {C : Collaborators}.

(** [initialize] with a loss builder of the module never prints and never
    opens or closes a scope.  When it returns, the variables have been
    initialized; when it raises, for whatever reason, the engine is as it
    was and no train step was assigned. *)
Theorem initialize_failure_frame (bl : M State tensor) (a : VIArgs)
    (s : State) :
  builds_only_loss bl ->
  let r := VariationalInference_initialize bl a s in
  stdout (world (fst r)) = stdout (world s) /\
  var_scope (world (fst r)) = var_scope (world s) /\
  (snd r = Ok tt ->
     tf (world (fst r)) = initialize_all_variables (tf (world s)) /\
     exists tr, train (self (fst r)) = Some tr) /\
  (forall e, snd r = Raise e ->
     world (fst r) = world s /\ train (self (fst r)) = train (self s)).
Proof.
  intros Hbl. cbv zeta. rewrite initialize_unfold.
  destruct (Hbl (entered a s)) as [Hk Hw].
  destruct (bl (entered a s)) as [s1 [l | e0]]; cbn [fst] in Hk, Hw;
    unfold settings_kept in Hk; cbn in Hk;
    destruct Hk as (_ & _ & _ & _ & _ & _ & Ht & _ & _);
    cbn in Hw.
  - destruct (a_optimizer a); [destruct (a_scope a) |];
      [| destruct has_prettytensor |]; cbn; rewrite ?Hw;
      repeat split; try discriminate; try assumption; try reflexivity;
      try (eexists; reflexivity);
      intros e He; try discriminate He; split; auto.
  - cbn. rewrite Hw. repeat split; try discriminate; auto.
Qed.

(** [MFVI.initialize] and [KLpq.initialize] store every argument before
    anything can raise: whether they return or raise, [n_minibatch],
    [n_iter], [n_data] and [n_print] hold the arguments, and the model, the
    data and the family are those of the constructor. *)
Theorem subclass_initialize_stores_arguments (s : State) :
  (forall a : MFVIArgs,
     let o' := self (fst (MFVI_initialize a s)) in
     n_minibatch o' = Some (a_n_minibatch a) /\
     n_iter o' = Some (a_n_iter (a_rest a)) /\
     n_data o' = Some (a_n_data (a_rest a)) /\
     n_print o' = Some (a_n_print (a_rest a)) /\
     model o' = model (self s) /\ data o' = data (self s) /\
     variational o' = variational (self s)) /\
  (forall a : KLpqArgs,
     let o' := self (fst (KLpq_initialize a s)) in
     n_minibatch o' = Some (k_n_minibatch a) /\
     n_iter o' = Some (a_n_iter (k_rest a)) /\
     n_data o' = Some (a_n_data (k_rest a)) /\
     n_print o' = Some (a_n_print (k_rest a)) /\
     model o' = model (self s) /\ data o' = data (self s) /\
     variational o' = variational (self s)).
Proof.
  split; intros a; cbv zeta.
  - unfold MFVI_initialize, bind, gets, assign, modify.
    destruct (match a_score a with
              | Some _ => false
              | None => is_reparam (variational (self s))
              end);
      match goal with
      | |- context [VariationalInference_initialize ?bl ?args ?st] =>
          destruct (initialize_settings args st frame_MFVI_build_loss)
            as (Hi & Hd & Hp & Hm & Hda & Hv & _ & Hnm)
      end;
      repeat split; assumption.
  - unfold KLpq_initialize, bind, assign, modify.
    match goal with
    | |- context [VariationalInference_initialize ?bl ?args ?st] =>
        destruct (initialize_settings args st frame_KLpq_build_loss)
          as (Hi & Hd & Hp & Hm & Hda & Hv & _ & Hnm)
    end.
    repeat split; assumption.
Qed.

End InitializeAnyOutcome.

(** ** The further properties on concrete runs *)

Lemma ex_engine_steps : @engine_steps ex_collaborators.
Proof. intros e tr l f. eexists _, _. reflexivity. Qed.

Lemma MAP_initialize_default_optimizer_witness :
  a_optimizer ex_args_short = None /\
  train (self (fst (initialize (@MAP_class ex_collaborators) ex_args_short
                      ex_map_state))) =
    Some (default_train (t_neg (log_joint None)) None).
Proof.
  split; [reflexivity |].
  rewrite (@MAP_initialize_default_optimizer ex_collaborators ex_args_short
             ex_map_state eq_refl).
  reflexivity.
Defined.

Lemma MAP_initialize_custom_optimizer_witness :
  a_optimizer ex_args_custom = Some "prettytensor" /\
  a_scope ex_args_custom = None /\
  snd (initialize (@MAP_class ex_collaborators) ex_args_custom ex_map_state) =
    Raise (NameError "pt").
Proof.
  split; [reflexivity |]. split; [reflexivity |].
  rewrite (@MAP_initialize_custom_optimizer ex_collaborators ex_args_custom
             ex_map_state "prettytensor" eq_refl eq_refl).
  reflexivity.
Defined.

Lemma MAP_initialize_again_witness :
  a_optimizer ex_args_short = None /\
  self (fst (initialize (@MAP_class ex_collaborators) ex_args_short
               (fst (initialize (@MAP_class ex_collaborators)
                       ex_args_scoped_optimizer ex_map_state)))) =
  self (fst (initialize (@MAP_class ex_collaborators) ex_args_short
               ex_map_state)).
Proof.
  split; [reflexivity |].
  apply (@MAP_initialize_again ex_collaborators ex_args_scoped_optimizer
           ex_args_short ex_map_state eq_refl).
Defined.

Lemma VariationalInference_update_spec_witness :
  train (self ex_map_state) = None /\
  snd (VariationalInference_update ex_map_state) =
    Raise (AttributeError "train").
Proof.
  split; [reflexivity |].
  destruct (@VariationalInference_update_spec ex_collaborators ex_map_state)
    as (_ & _ & _ & H & _).
  rewrite (H eq_refl). reflexivity.
Defined.

Lemma MFVI_update_spec_witness :
  zs (self (ex_mfvi_ready ex_family_score true)) = None /\
  snd (MFVI_update (ex_mfvi_ready ex_family_score true)) =
    Raise (AttributeError "zs").
Proof.
  split; [reflexivity |].
  destruct (@MFVI_update_spec ex_collaborators
              (ex_mfvi_ready ex_family_score true)) as (_ & _ & _ & H & _).
  rewrite (H eq_refl). reflexivity.
Defined.

Lemma build_reparam_loss_spec_witness :
  let s := ex_mfvi_ready ex_family_normal false in
  n_data (self s) = Some None /\ n_minibatch (self s) = Some 5 /\
  snd (MFVI_build_reparam_loss s) =
    Ok (t_neg (t_reduce_mean
                 (t_sub (t_model_log_prob (t_data_sample None)
                           (t_q_sample (Some 5)))
                        (t_q_log_prob (t_q_sample (Some 5)))))).
Proof.
  cbv zeta. split; [reflexivity |]. split; [reflexivity |].
  destruct (@build_reparam_loss_spec ex_collaborators
              (ex_mfvi_ready ex_family_normal false) None 5 eq_refl eq_refl)
    as [H _].
  rewrite H. reflexivity.
Defined.

Lemma build_score_loss_kl_spec_witness :
  has_log_lik (model (self ex_kl_state)) = true /\
  loss (self (fst (MFVI_build_score_loss_kl ex_kl_state))) =
    Some (t_sub (t_reduce_mean
                   (t_model_log_lik (t_data_sample None) (t_q_sample (Some 5))))
                (kl_multivariate_normal (t_pack [t_ref "loc"])
                   (t_pack [t_ref "scale"]))).
Proof.
  split; [reflexivity |].
  destruct (@build_score_loss_kl_spec ex_collaborators ex_kl_state None 5
              [t_ref "loc"] [t_ref "scale"]
              eq_refl eq_refl eq_refl eq_refl eq_refl) as [H _].
  rewrite H. reflexivity.
Defined.

Lemma build_reparam_loss_kl_spec_witness :
  has_log_lik (model (self ex_kl_state)) = true /\
  snd (MFVI_build_reparam_loss_kl ex_kl_state) =
    Ok (t_neg
          (t_sub (t_reduce_mean
                    (t_model_log_lik (t_data_sample None) (t_q_sample (Some 5))))
                 (kl_multivariate_normal (t_pack [t_ref "loc"])
                    (t_pack [t_ref "scale"])))).
Proof.
  split; [reflexivity |].
  destruct (@build_reparam_loss_kl_spec ex_collaborators ex_kl_state None 5
              [t_ref "loc"] [t_ref "scale"]
              eq_refl eq_refl eq_refl eq_refl eq_refl) as [H _].
  rewrite H. reflexivity.
Defined.

Lemma estimators_report_same_loss_witness :
  fst (MFVI_build_score_loss_kl ex_kl_state) =
  fst (MFVI_build_reparam_loss_kl ex_kl_state).
Proof.
  destruct (@estimators_report_same_loss ex_collaborators ex_kl_state)
    as (_ & H & _).
  destruct (MFVI_build_score_loss_kl ex_kl_state) as [s1 r1] eqn:E1.
  destruct (MFVI_build_reparam_loss_kl ex_kl_state) as [s2 r2] eqn:E2.
  destruct r1 as [r1 |]; [| vm_compute in E1; discriminate E1].
  destruct r2 as [r2 |]; [| vm_compute in E2; discriminate E2].
  exact (H s1 s2 r1 r2 eq_refl eq_refl).
Defined.

Lemma KLpq_initialize_then_update_witness :
  a_optimizer (k_rest ex_klpq_args) = None /\
  exists s1,
    KLpq_initialize ex_klpq_args (ex_mfvi_state ex_family_score) = (s1, Ok tt) /\
    zs (self s1) = Some (t_q_sample (Some 5)).
Proof.
  split; [reflexivity |].
  destruct (@KLpq_initialize_then_update ex_collaborators ex_klpq_args
              (ex_mfvi_state ex_family_score) eq_refl)
    as (s1 & l & o & Hi & _ & _ & _ & Hz & _).
  exists s1. split; assumption.
Defined.

Lemma MAP_run_calls_witness :
  exists st' (losses : list pyfloat),
    run (observed (@MAP_class ex_collaborators)) ex_args_reports
      (ex_map_state, []) = (st', Ok tt) /\
    Z.of_nat (List.length losses) = 10 + 1.
Proof.
  destruct (@MAP_run_calls ex_collaborators ex_args_reports ex_map_state
              ex_engine_steps eq_refl) as (st' & losses & H & Hl & _).
  - discriminate.
  - cbn. lia.
  - exists st', losses. split; assumption.
Defined.

Lemma MAP_run_reports_witness :
  exists s',
    run (@MAP_class ex_collaborators) ex_args_reports ex_map_state =
      (s', Ok tt) /\
    List.length (stdout (world s')) = 6%nat.
Proof.
  destruct (@MAP_run_reports ex_collaborators ex_args_reports ex_map_state 5
              ex_engine_steps eq_refl eq_refl) as (s' & H & Hl).
  - lia.
  - cbn. lia.
  - exists s'. split; [exact H |]. rewrite Hl. reflexivity.
Defined.

Lemma MAP_run_silent_witness :
  exists s',
    run (@MAP_class ex_collaborators) ex_args_silent ex_map_state =
      (s', Ok tt) /\
    stdout (world s') = [].
Proof.
  destruct (@MAP_run_silent ex_collaborators ex_args_silent ex_map_state
              ex_engine_steps eq_refl eq_refl) as (s' & H & Hl).
  exists s'. split; [exact H | exact Hl].
Defined.

Lemma KLpq_run_calls_witness :
  exists st' (losses : list pyfloat),
    run (observed (@KLpq_class ex_collaborators)) ex_klpq_args
      (ex_mfvi_state ex_family_score, []) = (st', Ok tt) /\
    Z.of_nat (List.length losses) = 2 + 1.
Proof.
  destruct (@KLpq_run_calls ex_collaborators ex_klpq_args
              (ex_mfvi_state ex_family_score) ex_engine_steps eq_refl)
    as (st' & losses & H & Hl & _).
  - discriminate.
  - cbn. lia.
  - exists st', losses. split; assumption.
Defined.

Lemma Laplace_finalize_spec_witness :
  n_data (self ex_ready_state) = Some None /\
  stdout (world (fst (Laplace_finalize ex_ready_state))) =
    ["Precision matrix:"; "H"].
Proof.
  split; [reflexivity |].
  destruct (@Laplace_finalize_spec ex_collaborators ex_ready_state)
    as (_ & H).
  destruct (H None eq_refl) as (Hok & _).
  rewrite (Hok _ "H" eq_refl). reflexivity.
Defined.

(** A run with a print interval of zero stops in the first progress call:
    [update] was entered once and returned, and [finalize] is not
    entered. *)
Lemma run_events_any_outcome_witness :
  run (traced (@MAP_class ex_collaborators)) ex_args_zero_interval
    (ex_map_state, []) =
  (fst (run (traced (@MAP_class ex_collaborators)) ex_args_zero_interval
          (ex_map_state, [])), Raise ZeroDivisionError) /\
  snd (fst (run (traced (@MAP_class ex_collaborators)) ex_args_zero_interval
              (ex_map_state, []))) =
    [enters_initialize ex_args_zero_interval; enters_update;
     update_returns (Finite (0 # 4)); enters_print_progress 0 (Finite (0 # 4))] /\
  exists losses ending,
    snd (fst (run (traced (@MAP_class ex_collaborators))
                ex_args_zero_interval (ex_map_state, []))) =
      enters_initialize ex_args_zero_interval :: turns 0 losses ++ ending /\
    (ending = [] \/ ending = [enters_update] \/ ending = [enters_finalize]) /\
    (List.length losses <= Z.to_nat (3 + 1))%nat.
Proof.
  split; [vm_compute; reflexivity |]. split; [vm_compute; reflexivity |].
  destruct (@run_events_any_outcome _ _ (@MAP_class ex_collaborators)
              ex_args_zero_interval ex_map_state)
    as (losses & ending & Hlog & He & _ & Hn).
  exists losses, ending. split; [exact Hlog |]. split; [exact He |].
  apply (Hn (fst (initialize (@MAP_class ex_collaborators)
                    ex_args_zero_interval ex_map_state))
            (fst (initialize (@MAP_class ex_collaborators)
                    ex_args_zero_interval ex_map_state)) 3);
    vm_compute; reflexivity.
Defined.

Lemma initialize_failure_frame_witness :
  let r := VariationalInference_initialize MAP_build_loss ex_args_custom
             ex_map_state in
  snd r = Raise (NameError "pt") /\
  world (fst r) = world ex_map_state /\
  train (self (fst r)) = None.
Proof.
  cbv zeta.
  destruct (@initialize_failure_frame ex_collaborators MAP_build_loss
              ex_args_custom ex_map_state frame_MAP_build_loss)
    as (_ & _ & _ & H).
  assert (Hr : snd (VariationalInference_initialize MAP_build_loss
                      ex_args_custom ex_map_state) = Raise (NameError "pt"))
    by (vm_compute; reflexivity).
  destruct (H _ Hr) as [Hw Ht].
  split; [exact Hr |]. split; [exact Hw |]. rewrite Ht. reflexivity.
Defined.

Lemma KLpq_single_sample_weight_witness :
  eval ex_interp_weights (KLpq_w_norm (t_ref "single")) = Some (Vector [1%R]).
Proof.
  destruct (@KLpq_single_sample_weight ex_interp_weights (t_ref "single") 2%R)
    as [H _].
  apply H. reflexivity.
Defined.

Lemma KLpq_weights_shift_witness :
  eval ex_interp_weights (KLpq_w_norm (t_ref "shifted")) =
  eval ex_interp_weights (KLpq_w_norm (t_ref "logw")).
Proof.
  apply (@KLpq_weights_shift ex_interp_weights (t_ref "logw") (t_ref "shifted")
           1%R [0%R; 0%R]).
  - discriminate.
  - reflexivity.
  - reflexivity.
Defined.

(** [MFVI.initialize()] with every default, on the Gaussian family and a
    model with [log_lik]: the analytic-KL reparam loss is built, and the
    train step minimizes its negation. *)
Lemma MFVI_initialize_builds_witness :
  let kl :=
    kl_multivariate_normal (t_pack [t_ref "loc"]) (t_pack [t_ref "scale"]) in
  let l :=
    t_sub (t_reduce_mean
             (t_model_log_lik (t_data_sample None) (t_q_sample (Some 1)))) kl in
  let s' := fst (MFVI_initialize MFVIArgs_default ex_kl_state) in
  score (self s') = Some false /\
  loss (self s') = Some l /\
  train (self s') = Some (default_train (t_neg l) None) /\
  zs (self s') = Some (t_q_sample (Some 1)).
Proof.
  cbv zeta.
  destruct (@MFVI_initialize_builds ex_collaborators MFVIArgs_default
              ex_kl_state) as (H & _).
  rewrite (H (conj eq_refl eq_refl) (conj eq_refl eq_refl)).
  repeat split; vm_compute; reflexivity.
Defined.
